(** * Digimon Card App: the save loader, the profile page and the full-card widget

    A shallow embedding of three Angular components
    ([AppComponent], [UserComponent], [FullCardComponent]) and of the few
    rxjs operators they pipe their fetches through, followed by the
    properties of the save-loading sequence, of the card counter and of the
    card sizing formula. *)

From Stdlib Require Import Floats QArith Qcanon Ascii Lqa.
From stdpp Require Import gmap strings list fin_maps numbers.

Local Open Scope string_scope.
Local Open Scope list_scope.
Local Open Scope Z_scope.

(** ** JavaScript values *)

Module Js.

(** What [JSON.parse] can return, plus [undefined], which is what reading
    an absent property gives.  Numbers are the rationals: every double
    that is a number is one, the two zeros are identified as [===] does,
    and a save never holds NaN or an infinity because JSON has none. *)
#[warnings="-register-all"] Inductive value : Type :=
| VUndefined
| VNull
| VBool (b : bool)
| VNum (q : Qc)
| VStr (s : string)
| VArr (elements : list value)
| VObj (properties : gmap string value).

(** [o.k] on an object. *)
Definition get (o : gmap string value) (k : string) : value :=
  default VUndefined (o !! k).

(** [{...o, k: v}]. *)
Definition spread_with (o : gmap string value) (k : string) (v : value)
  : gmap string value :=
  <[k := v]> o.

(** ToBoolean. *)
Definition truthy (v : value) : bool :=
  match v with
  | VUndefined | VNull => false
  | VBool b => b
  | VNum q => negb (bool_decide (q = 0%Qc))
  | VStr s => negb (bool_decide (s = ""))
  | VArr _ | VObj _ => true
  end.

(** ToBoolean of a string, for [found ? ... : ...]. *)
Definition truthy_string (s : string) : bool := negb (bool_decide (s = "")).

(** [a === b].  Arrays and objects compare by reference; the two sides of
    the only comparison in the sources are read from different objects
    (a loaded save and the [emptySave] constant), so two structured
    values are never the same reference there. *)
Definition strict_eq (a b : value) : bool :=
  match a, b with
  | VUndefined, VUndefined => true
  | VNull, VNull => true
  | VBool x, VBool y => bool_decide (x = y)
  | VNum x, VNum y => bool_decide (x = y)
  | VStr x, VStr y => bool_decide (x = y)
  | _, _ => false
  end.

(** [a !== b]. *)
Definition strict_neq (a b : value) : bool := negb (strict_eq a b).

(** [a ?? b]. *)
Definition nullish (a b : value) : value :=
  match a with
  | VUndefined | VNull => b
  | _ => a
  end.

(** The values [===] compares by content. *)
Definition primitive (v : value) : Prop :=
  match v with
  | VArr _ | VObj _ => False
  | _ => True
  end.

(** [a < b] between two numbers; anything else is not ordered here. *)
Definition below (a b : value) : Prop :=
  match a, b with
  | VNum x, VNum y => (x < y)%Qc
  | _, _ => False
  end.

Inductive exn : Type :=
| SyntaxError
| TypeError
| OtherError (message : string).

Inductive completion (A : Type) : Type :=
| Normal (a : A)
| Throw (e : exn).
Arguments Normal {A} a.
Arguments Throw {A} e.

(** Statements over a mutable state [S] that may throw. *)
Definition M (S A : Type) : Type := S -> completion A * S.

Definition ret {S A} (a : A) : M S A := fun s => (Normal a, s).

Definition bind {S A B} (m : M S A) (k : A -> M S B) : M S B :=
  fun s =>
    match m s with
    | (Normal a, s') => k a s'
    | (Throw e, s') => (Throw e, s')
    end.

Definition throw {S A} (e : exn) : M S A := fun s => (Throw e, s).

(** [try { body } catch (e) { handler }] *)
Definition try_catch {S A} (body : M S A) (handler : exn -> M S A) : M S A :=
  fun s =>
    match body s with
    | (Normal a, s') => (Normal a, s')
    | (Throw e, s') => handler e s'
    end.

(** A call that returns or throws without touching the state. *)
Definition lift {S A} (c : completion A) : M S A := fun s => (c, s).

Definition modify {S} (f : S -> S) : M S unit := fun s => (Normal tt, f s).

Definition reads {S A} (f : S -> A) : M S A := fun s => (Normal (f s), s).

Definition exec {S A} (m : M S A) (s : S) : S := snd (m s).

Definition outcome {S A} (m : M S A) (s : S) : completion A := fst (m s).

End Js.

Declare Scope js_scope.
Delimit Scope js_scope with js.
Notation "x <- m ;; k" := (Js.bind m (fun x => k))
  (at level 100, m at next level, right associativity) : js_scope.
Notation "m ;; k" := (Js.bind m (fun _ => k))
  (at level 100, right associativity) : js_scope.

(** ** rxjs: observables and the operators the components use *)

Module Rx.

(** An observable is modelled by the values it hands to [next], in order
    of arrival.  The components subscribe with a [next] callback only, so
    an error or a completion notification reaches no code of theirs. *)
Definition Observable (A : Type) : Type := list A.

(** [first()]: the first value, then the subscription is closed. *)
Definition first {A} (source : Observable A) : Observable A := take 1 source.

(** [takeUntil(notifier)]: [before] is how many values the source emits
    before the notifier fires. *)
Definition takeUntil {A} (before : nat) (source : Observable A)
  : Observable A := take before source.

(** [filter(predicate)] with a predicate that has side effects. *)
Fixpoint filter {S A} (predicate : A -> Js.M S bool) (source : Observable A)
  : Js.M S (Observable A) :=
  match source with
  | [] => Js.ret []
  | x :: rest =>
      (keep <- predicate x ;;
       kept <- filter predicate rest ;;
       Js.ret (if keep then x :: kept else kept))%js
  end.

(** [switchMap(project)]: each outer value opens an inner observable and
    closes the previous one.  [cut] is the schedule: for every outer value
    but the last, how many values its inner observable delivers before the
    next outer value arrives. *)
Fixpoint switchMap {A B} (project : A -> Observable B) (cut : list nat)
  (source : Observable A) : Observable B :=
  match source with
  | [] => []
  | x :: rest =>
      match rest with
      | [] => project x
      | _ :: _ =>
          (take (hd 0%nat cut) (project x)
             ++ switchMap project (tl cut) rest)%list
      end
  end.

(** [source.subscribe(next)]: [next] runs once for every value. *)
Fixpoint subscribe {S A} (source : Observable A) (next : A -> Js.M S unit)
  : Js.M S unit :=
  match source with
  | [] => Js.ret tt
  | x :: rest => (next x ;; subscribe rest next)%js
  end.

End Rx.

(** ** Models, store actions and injected services *)

(** [ISave]: a save is a plain object; its properties are read by name. *)
Abbreviation ISave := (gmap string Js.value).

(** The signed-in user; the components read its [uid] only. *)
Record IUser : Type := { uid : string }.

Module DigimonActions.

(** The action creators of [store/digimon.actions] the components call. *)
Inductive action : Type :=
| loadSave (save : ISave)
| setSave (save : ISave)
| changeCardCount (id : string) (count : Z)
| addCardToDeck (addCardToDeck : string).

(** The save an action carries, if it carries one. *)
Definition save_of (a : action) : option ISave :=
  match a with
  | loadSave save | setSave save => Some save
  | _ => None
  end.


End DigimonActions.

Module Store.

(** The state an ngrx store holds after a run of dispatches, for whatever
    reducer it was built with. *)
Definition state {S} (reducer : S -> DigimonActions.action -> S)
  (initial : S) (dispatched : list DigimonActions.action) : S :=
  fold_left reducer dispatched initial.

End Store.

(** A primeng toast. *)
Record Message : Type :=
  { severity : string; summary : string; detail : string }.

Module AuthService.
(** The state of the auth service once [checkLocalStorage] has run. *)
Record t : Type := { isLoggedIn : bool; userData : option IUser }.
End AuthService.

Module DatabaseService.
(** The two methods [AppComponent] calls.  [loadSave] answers with an
    observable of [ISave | null]; [checkSaveValidity] returns a save or
    throws. *)
Record t : Type :=
  { loadSave : string -> option IUser -> Rx.Observable (option ISave);
    checkSaveValidity : Js.value -> option IUser -> Js.completion ISave }.
End DatabaseService.

(** What [AppComponent] finds around itself: its injected services, the
    browser's local storage and [JSON.parse] ([None] is a SyntaxError), and
    the [emptySave] constant of the save reducer, given by its version
    number and its other properties. *)
Record Env : Type :=
  { authService : AuthService.t;
    databaseService : DatabaseService.t;
    localStorage : gmap string string;
    JSON_parse : string -> option Js.value;
    currentVersion : Qc;
    emptySave_rest : ISave }.

(** [emptySave], of [store/reducers/save.reducer]. *)
Definition emptySave (env : Env) : ISave :=
  <["version" := Js.VNum (currentVersion env)]> (emptySave_rest env).

(** ** app.component.ts *)

Module AppComponent.
Import DigimonActions.

(** The component's fields, with the actions it has dispatched to the
    store and the toasts it has handed to the message service. *)
Record t : Type :=
  { localStorageSave : Js.value;
    spinner : bool;
    hide : bool;
    noSaveDialog : bool;
    retryDialog : bool;
    showChangelog : bool;
    store : list action;
    messages : list Message }.

Definition set_localStorageSave (v : Js.value) (c : t) : t :=
  {| localStorageSave := v; spinner := spinner c; hide := hide c;
     noSaveDialog := noSaveDialog c; retryDialog := retryDialog c;
     showChangelog := showChangelog c; store := store c;
     messages := messages c |}.

Definition set_spinner (b : bool) (c : t) : t :=
  {| localStorageSave := localStorageSave c; spinner := b; hide := hide c;
     noSaveDialog := noSaveDialog c; retryDialog := retryDialog c;
     showChangelog := showChangelog c; store := store c;
     messages := messages c |}.

Definition set_hide (b : bool) (c : t) : t :=
  {| localStorageSave := localStorageSave c; spinner := spinner c; hide := b;
     noSaveDialog := noSaveDialog c; retryDialog := retryDialog c;
     showChangelog := showChangelog c; store := store c;
     messages := messages c |}.

Definition set_noSaveDialog (b : bool) (c : t) : t :=
  {| localStorageSave := localStorageSave c; spinner := spinner c;
     hide := hide c; noSaveDialog := b; retryDialog := retryDialog c;
     showChangelog := showChangelog c; store := store c;
     messages := messages c |}.

Definition set_retryDialog (b : bool) (c : t) : t :=
  {| localStorageSave := localStorageSave c; spinner := spinner c;
     hide := hide c; noSaveDialog := noSaveDialog c; retryDialog := b;
     showChangelog := showChangelog c; store := store c;
     messages := messages c |}.

Definition set_showChangelog (b : bool) (c : t) : t :=
  {| localStorageSave := localStorageSave c; spinner := spinner c;
     hide := hide c; noSaveDialog := noSaveDialog c;
     retryDialog := retryDialog c; showChangelog := b; store := store c;
     messages := messages c |}.

(** [this.store.dispatch(action)] *)
Definition dispatch (a : action) : Js.M t unit :=
  Js.modify (fun c =>
    {| localStorageSave := localStorageSave c; spinner := spinner c;
       hide := hide c; noSaveDialog := noSaveDialog c;
       retryDialog := retryDialog c; showChangelog := showChangelog c;
       store := store c ++ [a]; messages := messages c |}).

(** [this.messageService.add(message)] *)
Definition messageService_add (m : Message) : Js.M t unit :=
  Js.modify (fun c =>
    {| localStorageSave := localStorageSave c; spinner := spinner c;
       hide := hide c; noSaveDialog := noSaveDialog c;
       retryDialog := retryDialog c; showChangelog := showChangelog c;
       store := store c; messages := messages c ++ [m] |}).

(** [JSON.parse(text)] *)
Definition parse (env : Env) (text : string) : Js.M t Js.value :=
  match JSON_parse env text with
  | Some v => Js.ret v
  | None => Js.throw Js.SyntaxError
  end.

Definition storage_key : string := "Digimon-Card-Collector".

Definition checkForSave (env : Env) : Js.M t unit :=
  match localStorage env !! storage_key with
  | Some found =>
      if Js.truthy_string found
      then (v <- parse env found ;; Js.modify (set_localStorageSave v))%js
      else Js.modify (set_localStorageSave Js.VNull)
  | None => Js.modify (set_localStorageSave Js.VNull)
  end.

Definition startLoginOfflineDialog (env : Env) : Js.M t unit :=
  (cached <- Js.reads localStorageSave ;;
   if Js.truthy cached
   then
     save <- Js.lift (DatabaseService.checkSaveValidity (databaseService env)
                        cached (AuthService.userData (authService env))) ;;
     Js.modify (set_localStorageSave (Js.VObj save)) ;;
     dispatch (DigimonActions.loadSave save) ;;
     Js.modify (set_spinner false) ;;
     Js.modify (set_hide false)
   else
     Js.modify (set_spinner false) ;;
     Js.modify (set_noSaveDialog true))%js.

Definition startRetryDialog : Js.M t unit :=
  (Js.modify (set_spinner false) ;;
   Js.modify (set_retryDialog true))%js.

(** The callback [loadSave] subscribes to the fetch. *)
Definition loadSave_next (env : Env) (saveOrNull : option ISave)
  : Js.M t unit :=
  match saveOrNull with
  | None => startRetryDialog
  | Some save =>
      (Js.modify (set_spinner false) ;;
       Js.modify (set_hide false) ;;
       dispatch (DigimonActions.loadSave save) ;;
       Js.modify (set_showChangelog
                    (Js.strict_neq (Js.get save "version")
                                   (Js.get (emptySave env) "version"))) ;;
       dispatch (DigimonActions.setSave (Js.spread_with save "version"
                            (Js.get (emptySave env) "version"))))%js
  end.

(** The method [loadSave] of the component.  The subscriber runs when the
    fetch answers; its effect is composed here with the part that runs at
    once. *)
Definition loadSave (env : Env) : Js.M t unit :=
  (checkForSave env ;;
   if negb (AuthService.isLoggedIn (authService env))
   then startLoginOfflineDialog env
   else
     match AuthService.userData (authService env) with
     | None => Js.throw Js.TypeError
     | Some user =>
         Rx.subscribe
           (Rx.first (DatabaseService.loadSave (databaseService env)
                        (uid user) (AuthService.userData (authService env))))
           (loadSave_next env)
     end)%js.

Definition retry (env : Env) : Js.M t unit :=
  (Js.modify (set_spinner true) ;;
   Js.modify (set_retryDialog false) ;;
   loadSave env)%js.

Definition save_loaded : Message :=
  {| severity := "success"; summary := "Save loaded!";
     detail := "The save was loaded successfully!" |}.

Definition save_error : Message :=
  {| severity := "warn"; summary := "Save Error!";
     detail := "The save was not loaded!" |}.

(** [loadBackup]: the [onload] handler of the file reader, run on the text
    of the chosen file. *)
Definition loadBackup (env : Env) (result : string) : Js.M t unit :=
  Js.try_catch
    (parsed <- parse env result ;;
     save <- Js.lift (DatabaseService.checkSaveValidity (databaseService env)
                        parsed None) ;;
     dispatch (DigimonActions.loadSave save) ;;
     messageService_add save_loaded ;;
     Js.modify (set_retryDialog false) ;;
     Js.modify (set_spinner false) ;;
     Js.modify (set_hide false))%js
    (fun _ => messageService_add save_error).

(** The continuation [loginWithGoogle] attaches to the sign-in promise. *)
Definition loginWithGoogle_then : Js.M t unit :=
  (Js.modify (set_hide false) ;;
   Js.modify (set_noSaveDialog false) ;;
   Js.modify (set_retryDialog false))%js.

Definition createANewSave (env : Env) : Js.M t unit :=
  (Js.modify (set_hide false) ;;
   Js.modify (set_noSaveDialog false) ;;
   Js.modify (set_retryDialog false) ;;
   dispatch (DigimonActions.setSave (emptySave env)))%js.

(** The field initialisers; nothing has been dispatched or shown yet. *)
Definition initial : t :=
  {| localStorageSave := Js.VUndefined; spinner := true; hide := true;
     noSaveDialog := false; retryDialog := false; showChangelog := false;
     store := []; messages := [] |}.

(** The constructor past the page-title and meta-tag calls: it loads the
    save. *)
Definition constructor (env : Env) : Js.completion unit * t :=
  loadSave env initial.

End AppComponent.

(** ** The save validator, from the specification *)

Module SpecModel.

(** Modelled from the spec: [DatabaseService.checkSaveValidity]
    (service/database.service.ts is not among the sources).  The spec has
    it accept a raw, possibly stale or externally supplied save object and
    return a normalized save matching the current schema, merging in user
    identity fields, tolerating missing and extra fields without throwing;
    an imported save with an outdated version field comes out with the
    current version field set and its fields preserved.  So: every field
    of the raw object is kept, a field it lacks is taken from [emptySave],
    the user's id is merged in when there is a user, and the version is
    set to that of [emptySave]. *)
Definition checkSaveValidity (emptySave : ISave) (save : Js.value)
  (user : option IUser) : Js.completion ISave :=
  let raw := match save with Js.VObj properties => properties | _ => ∅ end in
  let filled := raw ∪ emptySave in
  let merged :=
    match user with
    | Some u => <["uid" := Js.VStr (uid u)]> filled
    | None => filled
    end in
  Js.Normal (<["version" := Js.get emptySave "version"]> merged).

(** An environment whose database service validates as the spec says. *)
Definition validating (env : Env) : Env :=
  {| authService := authService env;
     databaseService :=
       {| DatabaseService.loadSave :=
            DatabaseService.loadSave (databaseService env);
          DatabaseService.checkSaveValidity :=
            checkSaveValidity (emptySave env) |};
     localStorage := localStorage env;
     JSON_parse := JSON_parse env;
     currentVersion := currentVersion env;
     emptySave_rest := emptySave_rest env |}.

End SpecModel.

(** ** full-card.component.ts *)

(** A CSS length [n + 'vmin']: the number and the unit it is joined to. *)
Record CssLength : Type := { amount : float; suffix : string }.

Module FullCardComponent.
Import DigimonActions.

(** The fields the handlers read or write, with the actions dispatched to
    the store and the cards emitted on [viewCard].  [count] is a number of
    cards, an integer. *)
Record t : Type :=
  { card : string;
    count : Z;
    compact : bool;
    deckBuilder : bool;
    biggerCards : bool;
    collectionOnly : bool;
    cardWidth : CssLength;
    viewCard : list string;
    store : list action }.

Definition set_count (n : Z) (c : t) : t :=
  {| card := card c; count := n; compact := compact c;
     deckBuilder := deckBuilder c; biggerCards := biggerCards c;
     collectionOnly := collectionOnly c; cardWidth := cardWidth c;
     viewCard := viewCard c; store := store c |}.

Definition set_cardWidth (w : CssLength) (c : t) : t :=
  {| card := card c; count := count c; compact := compact c;
     deckBuilder := deckBuilder c; biggerCards := biggerCards c;
     collectionOnly := collectionOnly c; cardWidth := w;
     viewCard := viewCard c; store := store c |}.

Definition emit (c : t) : t :=
  {| card := card c; count := count c; compact := compact c;
     deckBuilder := deckBuilder c; biggerCards := biggerCards c;
     collectionOnly := collectionOnly c; cardWidth := cardWidth c;
     viewCard := viewCard c ++ [card c]; store := store c |}.

Definition dispatch (a : action) (c : t) : t :=
  {| card := card c; count := count c; compact := compact c;
     deckBuilder := deckBuilder c; biggerCards := biggerCards c;
     collectionOnly := collectionOnly c; cardWidth := cardWidth c;
     viewCard := viewCard c; store := store c ++ [a] |}.

Definition addCardToDeck (c : t) : t :=
  if collectionOnly c then emit c
  else dispatch (DigimonActions.addCardToDeck (card c)) c.

Definition showCardDetails (c : t) : t := emit c.

(** [value] is [event.target.value]. *)
Definition changeCardCount (value : Z) (id : string) (c : t) : t :=
  if value <=? 0 then c
  else
    let count := value in
    dispatch (DigimonActions.changeCardCount id count) c.

Definition increaseCardCount (id : string) (c : t) : t :=
  let c := set_count (count c + 1) c in
  let count := count c in
  dispatch (DigimonActions.changeCardCount id count) c.

Definition decreaseCardCount (id : string) (c : t) : t :=
  if count c <=? 0 then c
  else
    let c := set_count (count c - 1) c in
    let count := count c in
    dispatch (DigimonActions.changeCardCount id count) c.

(** [rangeToRange], in the doubles JavaScript computes with. *)
Definition rangeToRange (input : float) : float :=
  (((input - 5) * (30 - 20)) / (100 - 5) + 20)%float.

Definition setCardSize (size : float) (c : t) : t :=
  if biggerCards c then set_cardWidth {| amount := 20; suffix := "vw" |} c
  else if deckBuilder c then set_cardWidth {| amount := 5; suffix := "vw" |} c
  else if compact c
  then set_cardWidth {| amount := rangeToRange 100; suffix := "vmin" |} c
  else set_cardWidth {| amount := rangeToRange size; suffix := "vmin" |} c.

(** What the user can do to the widget. *)
Inductive interaction : Type :=
| ClickCard
| ClickDetails
| TypeCount (value : Z) (id : string)
| ClickPlus (id : string)
| ClickMinus (id : string)
| Resize (size : float).

Definition handle (c : t) (i : interaction) : t :=
  match i with
  | ClickCard => addCardToDeck c
  | ClickDetails => showCardDetails c
  | TypeCount value id => changeCardCount value id c
  | ClickPlus id => increaseCardCount id c
  | ClickMinus id => decreaseCardCount id c
  | Resize size => setCardSize size c
  end.

Definition interact (c : t) (events : list interaction) : t :=
  fold_left handle events c.

End FullCardComponent.



(** ** user.component.ts *)

Module UserComponent.

(** The fields the two fetch handlers write, and the path last handed to
    [location.replaceState]. *)
Record t : Type :=
  { save : option ISave;
    decks : Js.value;
    collection : Js.value;
    location : string }.

(** [digimonBackendService.getSave], an observable of [ISave | null]. *)
Definition getSave_t : Type := string -> Rx.Observable (option ISave).

(** The route parameters. *)
Abbreviation Params := (gmap string string).

Definition set_save (s : option ISave) (c : t) : t :=
  {| save := s; decks := decks c; collection := collection c;
     location := location c |}.

Definition replaceState (path : string) (c : t) : t :=
  {| save := save c; decks := decks c; collection := collection c;
     location := path |}.

(** [userData] is [authService.userData] at the time of the call. *)
Definition changeURL (userData : option IUser) : Js.M t unit :=
  match userData with
  | Some user =>
      if Js.truthy_string (uid user)
      then Js.modify (replaceState ("/user/" +:+ uid user))
      else Js.modify (replaceState "/user")
  | None => Js.modify (replaceState "/user")
  end.

(** The callback [userChange] subscribes to each fetch. *)
Definition userChange_next (result : option ISave) : Js.M t unit :=
  Js.modify (set_save result).

(** What [userChange] does at one change of the signed-in user. *)
Definition userChange_event (getSave : getSave_t) (userData : option IUser)
  : Js.M t unit :=
  (changeURL userData ;;
   match userData with
   | None => Js.throw Js.TypeError
   | Some user =>
       Rx.subscribe (Rx.first (getSave (uid user))) userChange_next
   end)%js.

(** [authChange] carries the user data in force at each change; [before]
    is how many changes happen before the component is destroyed. *)
Definition userChange (getSave : getSave_t) (before : nat)
  (authChange : Rx.Observable (option IUser)) : Js.M t unit :=
  Rx.subscribe (Rx.takeUntil before authChange) (userChange_event getSave).

(** The callback [checkURL] subscribes at the end of its pipe. *)
Definition checkURL_next (result : option ISave) : Js.M t unit :=
  Js.modify (fun c =>
    {| save := result;
       decks :=
         match result with
         | Some s => Js.nullish (Js.get s "decks") (decks c)
         | None => decks c
         end;
       collection :=
         match result with
         | Some s => Js.nullish (Js.get s "collection") (collection c)
         | None => collection c
         end;
       location := location c |}).

(** The predicate given to [filter]. *)
Definition has_id (userData : option IUser) (params : Params)
  : Js.M t bool :=
  match params !! "id" with
  | Some id =>
      if Js.truthy_string id then Js.ret true
      else (changeURL userData ;; Js.ret false)%js
  | None => (changeURL userData ;; Js.ret false)%js
  end.

(** The values that reach the subscriber of [checkURL]:
    [first()], [filter(...)], [switchMap(... getSave ... first())]. *)
Definition checkURL_results (getSave : getSave_t) (userData : option IUser)
  (cut : list nat) (params : Rx.Observable Params)
  : Js.M t (Rx.Observable (option ISave)) :=
  (kept <- Rx.filter (has_id userData) (Rx.first params) ;;
   Js.ret (Rx.switchMap
             (fun p => Rx.first (getSave (default "" (p !! "id"))))
             cut kept))%js.

Definition checkURL (getSave : getSave_t) (userData : option IUser)
  (cut : list nat) (params : Rx.Observable Params) : Js.M t unit :=
  (results <- checkURL_results getSave userData cut params ;;
   Rx.subscribe results checkURL_next)%js.

End UserComponent.

(** ** Vocabulary of the statements *)

(** Reading the local cache does not throw: the storage key is absent, or
    holds the empty string, or holds text that [JSON.parse] accepts. *)
Definition cache_readable (env : Env) : Prop :=
  match localStorage env !! AppComponent.storage_key with
  | Some found =>
      Js.truthy_string found = true -> is_Some (JSON_parse env found)
  | None => True
  end.

(** A save is current when its version is that of [emptySave]. *)
Definition current (env : Env) (save : ISave) : Prop :=
  Js.get save "version" = Js.get (emptySave env) "version".

(** The validator hands back saves at the current version. *)
Definition validator_current (env : Env) : Prop :=
  forall raw user save,
    DatabaseService.checkSaveValidity (databaseService env) raw user
      = Js.Normal save ->
    current env save.

(** The operations that load a save into the store. *)
Inductive load_operation : Type :=
| Initialise
| Retry
| ImportFile (result : string)
| CreateNew.

Definition perform (env : Env) (op : load_operation)
  : Js.M AppComponent.t unit :=
  match op with
  | Initialise => AppComponent.loadSave env
  | Retry => AppComponent.retry env
  | ImportFile result => AppComponent.loadBackup env result
  | CreateNew => AppComponent.createANewSave env
  end.

(** What one load operation may add to the dispatched actions: nothing;
    or one action carrying a current save; or the fetched save as it came,
    under [loadSave], followed under [setSave] by a current save that has
    the fetched save's other properties. *)
Definition load_shape (env : Env) (new : list DigimonActions.action) : Prop :=
  new = []
  \/ (exists a save,
        new = [a] /\ DigimonActions.save_of a = Some save
        /\ current env save)
  \/ (exists fetched stored,
        new = [DigimonActions.loadSave fetched; DigimonActions.setSave stored]
        /\ current env stored
        /\ forall k, k <> "version" -> stored !! k = fetched !! k).


(** ** full-card.component.ts: the store subscriptions of [ngOnInit] *)

Module ICountCard.
(** An entry of a deck: a card id and the number of copies. *)
Record t : Type := { id : string; count : Z }.
End ICountCard.

Module FullCardInit.

(** The two fields the subscriptions of [ngOnInit] write. *)
Record t : Type := { collectionMinimum : Z; countInDeck : Z }.

(** The field initialisers. *)
Definition initial : t := {| collectionMinimum := 0; countInDeck := 0 |}.

(** [deck.cards.find((value) => value.id === card.id)?.count ?? 0] *)
Definition countInDeck_of (card : string) (cards : list ICountCard.t) : Z :=
  match List.find (fun value => bool_decide (ICountCard.id value = card)) cards
  with
  | Some value => ICountCard.count value
  | None => 0
  end.

Definition collectionMinimum_next (minimum : Z) : Js.M t unit :=
  Js.modify (fun c =>
    {| collectionMinimum := minimum; countInDeck := countInDeck c |}).

Definition countInDeck_next (card : string) (cards : list ICountCard.t)
  : Js.M t unit :=
  Js.modify (fun c =>
    {| collectionMinimum := collectionMinimum c;
       countInDeck := countInDeck_of card cards |}).

(** [ngOnInit] with [ngOnDestroy] after it: [minimums] and [decks] are what
    the two selectors emit, and [seen_minimums] and [seen_decks] how many of
    their values arrive before [onDestroy$] fires. *)
Definition ngOnInit (card : string)
  (seen_minimums : nat) (minimums : Rx.Observable Z)
  (seen_decks : nat) (decks : Rx.Observable (list ICountCard.t))
  : Js.M t unit :=
  (Rx.subscribe (Rx.takeUntil seen_minimums minimums) collectionMinimum_next ;;
   Rx.subscribe (Rx.takeUntil seen_decks decks) (countInDeck_next card))%js.

End FullCardInit.

(** ** Further vocabulary *)

(** The environment with another fetch in the place of
    [databaseService.loadSave]. *)
Definition with_fetch
  (fetch : string -> option IUser -> Rx.Observable (option ISave))
  (env : Env) : Env :=
  {| authService := authService env;
     databaseService :=
       {| DatabaseService.loadSave := fetch;
          DatabaseService.checkSaveValidity :=
            DatabaseService.checkSaveValidity (databaseService env) |};
     localStorage := localStorage env;
     JSON_parse := JSON_parse env;
     currentVersion := currentVersion env;
     emptySave_rest := emptySave_rest env |}.

(** The environment with another validator in the place of
    [databaseService.checkSaveValidity]. *)
Definition with_validator
  (validate : Js.value -> option IUser -> Js.completion ISave)
  (env : Env) : Env :=
  {| authService := authService env;
     databaseService :=
       {| DatabaseService.loadSave :=
            DatabaseService.loadSave (databaseService env);
          DatabaseService.checkSaveValidity := validate |};
     localStorage := localStorage env;
     JSON_parse := JSON_parse env;
     currentVersion := currentVersion env;
     emptySave_rest := emptySave_rest env |}.

(** An action that carries a save. *)
Definition save_action (a : DigimonActions.action) : Prop :=
  is_Some (DigimonActions.save_of a).


(** The interactions that are clicks on the card itself. *)
Definition card_click (i : FullCardComponent.interaction) : Prop :=
  i = FullCardComponent.ClickCard \/ i = FullCardComponent.ClickDetails.

(** The interactions that are presses of plus or minus. *)
Definition counter_press (i : FullCardComponent.interaction) : Prop :=
  match i with
  | FullCardComponent.ClickPlus _ | FullCardComponent.ClickMinus _ => True
  | _ => False
  end.

(** ** Sample saves and environments *)

Module Sample.

Definition ash : IUser := {| uid := "ash" |}.

(** The properties of the reducer's empty save other than its version. *)
Definition empty_rest : ISave :=
  {[ "collection" := Js.VArr []; "decks" := Js.VArr [] ]}.

(** The reducer's empty save, at version 2. *)
Definition empty_v2 : ISave :=
  {[ "version" := Js.VNum (Q2Qc 2);
     "collection" := Js.VArr [];
     "decks" := Js.VArr [] ]}.

(** A save written by version 1 of the app. *)
Definition stale : ISave :=
  {[ "version" := Js.VNum (Q2Qc 1);
     "uid" := Js.VStr "ash";
     "collection" := Js.VArr [Js.VObj {[ "id" := Js.VStr "BT1-001" ]}] ]}.

Definition quote : string := String "034"%char "".

(** The text of a file holding [stale]'s version and uid. *)
Definition stale_text : string :=
  "{" +:+ quote +:+ "version" +:+ quote +:+ ":1,"
      +:+ quote +:+ "uid" +:+ quote +:+ ":" +:+ quote +:+ "ash" +:+ quote
      +:+ "}".

(** [JSON.parse] on the few texts the samples use. *)
Definition parse (text : string) : option Js.value :=
  if bool_decide (text = stale_text) then
    Some (Js.VObj {[ "version" := Js.VNum (Q2Qc 1);
                     "uid" := Js.VStr "ash" ]})
  else if bool_decide (text = "{}") then Some (Js.VObj ∅)
  else if bool_decide (text = "null") then Some Js.VNull
  else None.

(** A validator that accepts objects and stamps them with version 2. *)
Definition validate (raw : Js.value) (user : option IUser)
  : Js.completion ISave :=
  match raw with
  | Js.VObj properties =>
      Js.Normal (<["version" := Js.VNum (Q2Qc 2)]> properties)
  | _ => Js.Throw Js.TypeError
  end.

(** A signed-in session whose fetch answers with [emissions], on a
    browser that still holds a cached save. *)
Definition online (emissions : Rx.Observable (option ISave)) : Env :=
  {| authService :=
       {| AuthService.isLoggedIn := true; AuthService.userData := Some ash |};
     databaseService :=
       {| DatabaseService.loadSave := fun _ _ => emissions;
          DatabaseService.checkSaveValidity := validate |};
     localStorage := {[ "Digimon-Card-Collector" := stale_text ]};
     JSON_parse := parse;
     currentVersion := Q2Qc 2;
     emptySave_rest := empty_rest |}.

(** A signed-out session over the given local storage. *)
Definition offline (storage : gmap string string) : Env :=
  {| authService :=
       {| AuthService.isLoggedIn := false; AuthService.userData := None |};
     databaseService :=
       {| DatabaseService.loadSave := fun _ _ => [];
          DatabaseService.checkSaveValidity := validate |};
     localStorage := storage;
     JSON_parse := parse;
     currentVersion := Q2Qc 2;
     emptySave_rest := empty_rest |}.

(** A widget bound to a count of [n]. *)
Definition widget (n : Z) (compact bigger : bool) : FullCardComponent.t :=
  {| FullCardComponent.card := "BT1-001";
     FullCardComponent.count := n;
     FullCardComponent.compact := compact;
     FullCardComponent.deckBuilder := false;
     FullCardComponent.biggerCards := bigger;
     FullCardComponent.collectionOnly := false;
     FullCardComponent.cardWidth := {| amount := 7; suffix := "vmin" |};
     FullCardComponent.viewCard := [];
     FullCardComponent.store := [] |}.

End Sample.

(** ** The monad and the operators *)

Section Operators.
Context {S A : Type}.

Lemma subscribe_first (source : Rx.Observable A) (next : A -> Js.M S unit)
  (s : S) :
  Rx.subscribe (Rx.first source) next s
  = match source with
    | [] => (Js.Normal tt, s)
    | x :: _ => next x s
    end.
Proof.
  destruct source as [|x rest]; [reflexivity|].
  cbn. unfold Js.bind. destruct (next x s) as [[[]|e] s']; reflexivity.
Qed.

Lemma first_length (source : Rx.Observable A) :
  (length (Rx.first source) <= 1)%nat.
Proof. unfold Rx.first. rewrite length_take. lia. Qed.

Lemma first_cons (x : A) (rest : Rx.Observable A) :
  Rx.first (x :: rest) = [x].
Proof. unfold Rx.first. cbn. by rewrite take_0. Qed.

Lemma first_first (source : Rx.Observable A) :
  Rx.first (Rx.first source) = Rx.first source.
Proof. destruct source; [reflexivity|]. by rewrite first_cons. Qed.

End Operators.

(** ** Reading the local cache *)

Lemma checkForSave_readable env c :
  cache_readable env ->
  exists v,
    AppComponent.checkForSave env c
    = (Js.Normal tt, AppComponent.set_localStorageSave v c).
Proof.
  unfold cache_readable, AppComponent.checkForSave.
  destruct (localStorage env !! AppComponent.storage_key) as [found|];
    [|intros _; eexists; reflexivity].
  destruct (Js.truthy_string found); [|intros _; eexists; reflexivity].
  intros Hparse. destruct (Hparse eq_refl) as [v Hv].
  exists v. unfold AppComponent.parse, Js.bind. rewrite Hv. reflexivity.
Qed.

Lemma sample_online_readable emissions :
  cache_readable (Sample.online emissions).
Proof.
  unfold cache_readable.
  assert (localStorage (Sample.online emissions) !! AppComponent.storage_key
          = Some Sample.stale_text) as -> by reflexivity.
  intros _. eexists. reflexivity.
Qed.

Lemma checkForSave_absent env c :
  localStorage env !! AppComponent.storage_key = None ->
  AppComponent.checkForSave env c
  = (Js.Normal tt, AppComponent.set_localStorageSave Js.VNull c).
Proof. unfold AppComponent.checkForSave. intros ->. reflexivity. Qed.

(** The authenticated branch of [loadSave], once the cache has been read. *)
Lemma loadSave_remote env c user :
  cache_readable env ->
  AuthService.isLoggedIn (authService env) = true ->
  AuthService.userData (authService env) = Some user ->
  exists v,
    AppComponent.loadSave env c
    = match DatabaseService.loadSave (databaseService env) (uid user)
              (Some user) with
      | [] => (Js.Normal tt, AppComponent.set_localStorageSave v c)
      | r :: _ =>
          AppComponent.loadSave_next env r
            (AppComponent.set_localStorageSave v c)
      end.
Proof.
  intros Hcache Hin Huser.
  destruct (checkForSave_readable env c Hcache) as [v Hv].
  exists v. unfold AppComponent.loadSave, Js.bind at 1.
  rewrite Hv, Hin, Huser. cbn [negb]. apply subscribe_first.
Qed.

(** ** The save loader *)

(** C3: importing a file whose text is not JSON dispatches nothing, so the
    store holds what it held, whatever its reducer; the load ends normally
    and a warning toast has been added; the component's flags are as they
    were. *)
Theorem loadBackup_unparseable env result c :
  JSON_parse env result = None ->
  let c' := Js.exec (AppComponent.loadBackup env result) c in
  Js.outcome (AppComponent.loadBackup env result) c = Js.Normal tt
  /\ AppComponent.store c' = AppComponent.store c
  /\ (forall S (reducer : S -> DigimonActions.action -> S) initial,
        Store.state reducer initial (AppComponent.store c')
        = Store.state reducer initial (AppComponent.store c))
  /\ AppComponent.messages c'
     = AppComponent.messages c ++ [AppComponent.save_error]
  /\ severity AppComponent.save_error = "warn"
  /\ AppComponent.spinner c' = AppComponent.spinner c
  /\ AppComponent.hide c' = AppComponent.hide c
  /\ AppComponent.retryDialog c' = AppComponent.retryDialog c
  /\ AppComponent.noSaveDialog c' = AppComponent.noSaveDialog c.
Proof.
  intros Hparse.
  unfold Js.exec, Js.outcome, AppComponent.loadBackup, Js.try_catch,
    Js.bind at 1, AppComponent.parse.
  rewrite Hparse. cbn. repeat split; reflexivity.
Qed.

(** An instance: a file holding a lone brace. *)
Lemma loadBackup_unparseable_witness :
  let c' := Js.exec (AppComponent.loadBackup (Sample.offline ∅) "{")
              AppComponent.initial in
  JSON_parse (Sample.offline ∅) "{" = None
  /\ AppComponent.store c' = []
  /\ AppComponent.messages c' = [AppComponent.save_error].
Proof.
  pose proof (loadBackup_unparseable (Sample.offline ∅) "{"
                AppComponent.initial eq_refl) as H.
  cbv zeta in H. destruct H as (_ & Hstore & _ & Hmsg & _).
  split; [reflexivity|]. split; [exact Hstore | exact Hmsg].
Defined.

Lemma strict_eq_spec (a b : Js.value) :
  Js.primitive b -> (Js.strict_eq a b = true <-> a = b).
Proof.
  intros Hb. destruct a, b; cbn in *; try tauto;
    try (split; [discriminate | intros [=]]);
    rewrite bool_decide_eq_true; split; congruence.
Qed.

Lemma strict_neq_spec (a b : Js.value) :
  Js.primitive b -> (Js.strict_neq a b = true <-> a <> b).
Proof.
  intros Hb. unfold Js.strict_neq. rewrite negb_true_iff.
  rewrite <- (strict_eq_spec a b Hb). destruct (Js.strict_eq a b); split;
    congruence.
Qed.

Lemma emptySave_version env :
  Js.get (emptySave env) "version" = Js.VNum (currentVersion env).
Proof. unfold Js.get, emptySave. by rewrite lookup_insert_eq. Qed.

Lemma spread_with_get o k v : Js.get (Js.spread_with o k v) k = v.
Proof. unfold Js.get, Js.spread_with. by rewrite lookup_insert_eq. Qed.

Lemma spread_with_other (o : gmap string Js.value) k v j :
  j <> k -> Js.spread_with o k v !! j = o !! j.
Proof. intros Hne. unfold Js.spread_with. by rewrite lookup_insert_ne. Qed.

(** What the subscriber of the fetch does with a save. *)
Lemma loadSave_next_save env save c :
  AppComponent.loadSave_next env (Some save) c
  = (Js.Normal tt,
     {| AppComponent.localStorageSave := AppComponent.localStorageSave c;
        AppComponent.spinner := false;
        AppComponent.hide := false;
        AppComponent.noSaveDialog := AppComponent.noSaveDialog c;
        AppComponent.retryDialog := AppComponent.retryDialog c;
        AppComponent.showChangelog :=
          Js.strict_neq (Js.get save "version")
                        (Js.get (emptySave env) "version");
        AppComponent.store :=
          (AppComponent.store c ++ [DigimonActions.loadSave save])
            ++ [DigimonActions.setSave
                  (Js.spread_with save "version"
                     (Js.get (emptySave env) "version"))];
        AppComponent.messages := AppComponent.messages c |}).
Proof. reflexivity. Qed.


(** The signed-out branch of [loadSave] when the storage key is absent. *)
Lemma loadSave_offline_absent env c :
  AuthService.isLoggedIn (authService env) = false ->
  localStorage env !! AppComponent.storage_key = None ->
  AppComponent.loadSave env c
  = (Js.Normal tt,
     AppComponent.set_noSaveDialog true
       (AppComponent.set_spinner false
          (AppComponent.set_localStorageSave Js.VNull c))).
Proof.
  intros Hout Hnone. unfold AppComponent.loadSave, Js.bind at 1.
  rewrite (checkForSave_absent env c Hnone), Hout. reflexivity.
Qed.


(** [retry] is [loadSave] with the spinner back and the retry dialog down. *)
Lemma retry_unfold env c :
  AppComponent.retry env c
  = AppComponent.loadSave env
      (AppComponent.set_retryDialog false (AppComponent.set_spinner true c)).
Proof. reflexivity. Qed.



(** C5: a signed-out user with nothing under the storage key is shown the
    no-save dialog and nothing is dispatched; choosing to create a new save
    then dispatches the empty save, and only that. *)
Theorem no_save_then_create env :
  AuthService.isLoggedIn (authService env) = false ->
  localStorage env !! AppComponent.storage_key = None ->
  let shown := snd (AppComponent.constructor env) in
  let created := Js.exec (AppComponent.createANewSave env) shown in
  fst (AppComponent.constructor env) = Js.Normal tt
  /\ AppComponent.noSaveDialog shown = true
  /\ AppComponent.spinner shown = false
  /\ AppComponent.store shown = []
  /\ Js.outcome (AppComponent.createANewSave env) shown = Js.Normal tt
  /\ AppComponent.store created = [DigimonActions.setSave (emptySave env)]
  /\ AppComponent.noSaveDialog created = false
  /\ AppComponent.hide created = false.
Proof.
  intros Hout Hnone. unfold AppComponent.constructor.
  rewrite loadSave_offline_absent by assumption.
  repeat split.
Qed.

(** An instance: a signed-out start-up over an empty storage. *)
Lemma no_save_then_create_witness :
  AppComponent.store
    (Js.exec (AppComponent.createANewSave (Sample.offline ∅))
       (snd (AppComponent.constructor (Sample.offline ∅))))
  = [DigimonActions.setSave Sample.empty_v2].
Proof.
  destruct (no_save_then_create (Sample.offline ∅))
    as (_ & _ & _ & _ & _ & Hstore & _); [reflexivity | reflexivity |].
  exact Hstore.
Defined.



(** C8: when the fetch of a signed-in load answers with a save, the last
    action dispatched is [setSave] of that save with its version replaced
    by the current one: the version read back is the current version and
    every other property is the fetched one.  The changelog flag is set
    exactly when the fetched version is not the current version. *)
Theorem remote_success_frame env user save rest c :
  cache_readable env ->
  AuthService.isLoggedIn (authService env) = true ->
  AuthService.userData (authService env) = Some user ->
  DatabaseService.loadSave (databaseService env) (uid user) (Some user)
    = Some save :: rest ->
  let c' := Js.exec (AppComponent.loadSave env) c in
  exists stored,
    list.last (AppComponent.store c') = Some (DigimonActions.setSave stored)
    /\ Js.get stored "version" = Js.get (emptySave env) "version"
    /\ (forall k, k <> "version" -> stored !! k = save !! k)
    /\ (AppComponent.showChangelog c' = true
        <-> Js.get save "version" <> Js.get (emptySave env) "version").
Proof.
  intros Hcache Hin Huser Hfetch. unfold Js.exec.
  destruct (loadSave_remote env c user Hcache Hin Huser) as [v ->].
  rewrite Hfetch, loadSave_next_save. cbn [snd].
  exists (Js.spread_with save "version" (Js.get (emptySave env) "version")).
  cbn [AppComponent.store AppComponent.showChangelog].
  split; [apply last_snoc|].
  split; [apply spread_with_get|].
  split; [intros k Hk; by apply spread_with_other|].
  apply strict_neq_spec. by rewrite emptySave_version.
Qed.

(** An instance: the fetch answers with a save of version 1. *)
Lemma remote_success_frame_witness :
  let c' := Js.exec (AppComponent.loadSave (Sample.online [Some Sample.stale]))
              AppComponent.initial in
  exists stored,
    list.last (AppComponent.store c') = Some (DigimonActions.setSave stored)
    /\ Js.get stored "version" = Js.VNum (Q2Qc 2)
    /\ stored !! "uid" = Some (Js.VStr "ash")
    /\ AppComponent.showChangelog c' = true.
Proof.
  destruct (remote_success_frame (Sample.online [Some Sample.stale])
              Sample.ash Sample.stale [] AppComponent.initial
              (sample_online_readable _) eq_refl eq_refl eq_refl)
    as (stored & Hlast & Hversion & Hframe & Hlog).
  exists stored. split; [exact Hlast|]. split; [exact Hversion|].
  split; [rewrite Hframe by discriminate; reflexivity|].
  apply Hlog. vm_compute. intros [=].
Defined.

(** ** What the load operations dispatch *)

Lemma checkForSave_store env c :
  AppComponent.store (snd (AppComponent.checkForSave env c))
  = AppComponent.store c.
Proof.
  unfold AppComponent.checkForSave.
  destruct (localStorage env !! AppComponent.storage_key) as [found|];
    [|reflexivity].
  destruct (Js.truthy_string found); [|reflexivity].
  unfold Js.bind, AppComponent.parse.
  destruct (JSON_parse env found); reflexivity.
Qed.

Lemma startLoginOfflineDialog_shape env c :
  validator_current env ->
  exists new,
    AppComponent.store (snd (AppComponent.startLoginOfflineDialog env c))
    = AppComponent.store c ++ new
    /\ load_shape env new.
Proof.
  intros Hvalid. unfold AppComponent.startLoginOfflineDialog, Js.bind at 1.
  cbn [Js.reads]. destruct (Js.truthy (AppComponent.localStorageSave c)).
  - unfold Js.bind at 1, Js.lift.
    destruct (DatabaseService.checkSaveValidity (databaseService env)
                (AppComponent.localStorageSave c)
                (AuthService.userData (authService env)))
      as [save|e] eqn:Hcheck.
    + exists [DigimonActions.loadSave save]. split; [reflexivity|].
      right; left. exists (DigimonActions.loadSave save), save.
      repeat split. by eapply Hvalid.
    + exists []. split; [cbn; by rewrite app_nil_r | by left].
  - exists []. split; [cbn; by rewrite app_nil_r | by left].
Qed.

Lemma loadSave_next_shape env r c :
  exists new,
    AppComponent.store (snd (AppComponent.loadSave_next env r c))
    = AppComponent.store c ++ new
    /\ load_shape env new.
Proof.
  destruct r as [save|].
  - rewrite loadSave_next_save. cbn [snd AppComponent.store].
    exists [DigimonActions.loadSave save;
            DigimonActions.setSave
              (Js.spread_with save "version"
                 (Js.get (emptySave env) "version"))].
    split; [by rewrite <- app_assoc|].
    right; right. eexists _, _. split; [reflexivity|].
    split; [apply spread_with_get|].
    intros k Hk. by apply spread_with_other.
  - exists []. split; [cbn; by rewrite app_nil_r | by left].
Qed.

Lemma loadSave_shape env c :
  validator_current env ->
  exists new,
    AppComponent.store (Js.exec (AppComponent.loadSave env) c)
    = AppComponent.store c ++ new
    /\ load_shape env new.
Proof.
  intros Hvalid. unfold Js.exec, AppComponent.loadSave, Js.bind at 1.
  pose proof (checkForSave_store env c) as Hstore.
  destruct (AppComponent.checkForSave env c) as [[[]|e] c1]; cbn [snd] in *.
  - rewrite <- Hstore.
    destruct (AuthService.isLoggedIn (authService env)); cbn [negb].
    + destruct (AuthService.userData (authService env)) as [user|].
      * rewrite subscribe_first.
        destruct (DatabaseService.loadSave (databaseService env) (uid user)
                    (Some user)) as [|r rest].
        -- exists []. split; [cbn; by rewrite app_nil_r | by left].
        -- apply loadSave_next_shape.
      * exists []. split; [cbn; by rewrite app_nil_r | by left].
    + by apply startLoginOfflineDialog_shape.
  - exists []. split; [by rewrite app_nil_r | by left].
Qed.

Lemma loadBackup_shape env result c :
  validator_current env ->
  exists new,
    AppComponent.store (Js.exec (AppComponent.loadBackup env result) c)
    = AppComponent.store c ++ new
    /\ load_shape env new.
Proof.
  intros Hvalid.
  unfold Js.exec, AppComponent.loadBackup, Js.try_catch, Js.bind at 1,
    AppComponent.parse.
  destruct (JSON_parse env result) as [parsed|].
  - cbn [Js.ret]. unfold Js.bind at 1, Js.lift.
    destruct (DatabaseService.checkSaveValidity (databaseService env) parsed
                None) as [save|e] eqn:Hcheck.
    + exists [DigimonActions.loadSave save]. split; [reflexivity|].
      right; left. exists (DigimonActions.loadSave save), save.
      repeat split. by eapply Hvalid.
    + exists []. split; [cbn; by rewrite app_nil_r | by left].
  - exists []. split; [cbn; by rewrite app_nil_r | by left].
Qed.

Lemma load_shape_last env new a :
  load_shape env new ->
  list.last new = Some a ->
  exists save, DigimonActions.save_of a = Some save /\ current env save.
Proof.
  intros [-> | [(a' & save & -> & Hsave & Hcur)
               | (fetched & stored & -> & Hcur & _)]] Hlast.
  - discriminate.
  - injection Hlast as <-. eauto.
  - injection Hlast as <-. eauto.
Qed.

(** C1, as the code has it: with a validator that returns current saves,
    every load operation (start-up, retry, file import, new save) adds to
    the dispatched actions either nothing, or one action whose save is
    current, or, on a remote load, the fetched save as it came under
    [loadSave] and then, under [setSave], a current save with the fetched
    save's other properties; so the action dispatched last always carries
    a current save. *)
Theorem load_dispatches_current env op c :
  validator_current env ->
  exists new,
    AppComponent.store (Js.exec (perform env op) c)
    = AppComponent.store c ++ new
    /\ load_shape env new
    /\ (forall a, list.last new = Some a ->
        exists save,
          DigimonActions.save_of a = Some save /\ current env save).
Proof.
  intros Hvalid.
  assert (exists new,
             AppComponent.store (Js.exec (perform env op) c)
             = AppComponent.store c ++ new /\ load_shape env new)
    as (new & Hstore & Hshape).
  { destruct op as [| |result|]; cbn [perform].
    - by apply loadSave_shape.
    - unfold Js.exec. rewrite retry_unfold.
      by apply (loadSave_shape env
                  (AppComponent.set_retryDialog false
                     (AppComponent.set_spinner true c))).
    - by apply loadBackup_shape.
    - exists [DigimonActions.setSave (emptySave env)].
      split; [reflexivity|]. right; left.
      exists (DigimonActions.setSave (emptySave env)), (emptySave env).
      repeat split. }
  exists new. split; [exact Hstore|]. split; [exact Hshape|].
  intros a. by apply load_shape_last.
Qed.

Lemma sample_validate_current emissions :
  validator_current (Sample.online emissions).
Proof.
  intros raw user save. cbn. unfold Sample.validate.
  destruct raw; try discriminate. intros [= <-].
  unfold current, Js.get. by rewrite lookup_insert_eq.
Qed.

(** An instance: a signed-in start-up whose fetch answers with a save of
    version 1. *)
Lemma load_dispatches_current_witness :
  let env := Sample.online [Some Sample.stale] in
  validator_current env
  /\ exists new,
       AppComponent.store (Js.exec (perform env Initialise)
                             AppComponent.initial) = new
       /\ load_shape env new.
Proof.
  split; [apply sample_validate_current|].
  destruct (load_dispatches_current (Sample.online [Some Sample.stale])
              Initialise AppComponent.initial
              (sample_validate_current [Some Sample.stale]))
    as (new & Hstore & Hshape & _).
  exists new. split; [exact Hstore | exact Hshape].
Defined.

(** C1 fails as stated: a signed-in start-up whose fetch answers with a
    save of version 1, while the current version is 2, dispatches that save
    unchanged under [loadSave]; its version is below the current one. *)
Lemma stale_save_dispatched :
  let env := Sample.online [Some Sample.stale] in
  AppComponent.store (snd (AppComponent.constructor env))
  = [DigimonActions.loadSave Sample.stale;
     DigimonActions.setSave
       (Js.spread_with Sample.stale "version" (Js.VNum (Q2Qc 2)))]
  /\ DigimonActions.loadSave Sample.stale
       ∈ AppComponent.store (snd (AppComponent.constructor env))
  /\ Js.below (Js.get Sample.stale "version")
              (Js.get (emptySave env) "version")
  /\ ~ current env Sample.stale.
Proof.
  cbv zeta. split; [reflexivity|]. split; [apply list_elem_of_here|].
  split; [reflexivity|]. unfold current. vm_compute. intros [=].
Qed.

(** ** Importing a save through the validator of the specification *)

(** C4: with the validator the specification describes, importing a file
    whose text parses to a save object dispatches one [loadSave] whose
    save has the current version, whatever version the file carried, and
    has every other property of the imported save. *)
Theorem loadBackup_outdated env result raw c :
  JSON_parse env result = Some (Js.VObj raw) ->
  let c' :=
    Js.exec (AppComponent.loadBackup (SpecModel.validating env) result) c in
  exists save,
    AppComponent.store c'
    = AppComponent.store c ++ [DigimonActions.loadSave save]
    /\ Js.get save "version" = Js.get (emptySave env) "version"
    /\ (forall k v, k <> "version" -> raw !! k = Some v -> save !! k = Some v).
Proof.
  intros Hparse.
  exists (<["version" := Js.get (emptySave env) "version"]>
            (raw ∪ emptySave env)).
  split; [|split].
  - unfold Js.exec, AppComponent.loadBackup, Js.try_catch, Js.bind at 1,
      AppComponent.parse.
    cbn [JSON_parse SpecModel.validating]. rewrite Hparse. reflexivity.
  - unfold Js.get at 1. by rewrite lookup_insert_eq.
  - intros k v Hk Hraw. rewrite lookup_insert_ne by done.
    by apply lookup_union_Some_l.
Qed.

(** An instance: a file holding a save of version 1. *)
Lemma loadBackup_outdated_witness :
  let env := Sample.offline ∅ in
  let c' :=
    Js.exec (AppComponent.loadBackup (SpecModel.validating env)
               Sample.stale_text) AppComponent.initial in
  exists save,
    AppComponent.store c' = [DigimonActions.loadSave save]
    /\ Js.get save "version" = Js.VNum (Q2Qc 2)
    /\ save !! "uid" = Some (Js.VStr "ash").
Proof.
  destruct (loadBackup_outdated (Sample.offline ∅) Sample.stale_text
              {[ "version" := Js.VNum (Q2Qc 1); "uid" := Js.VStr "ash" ]}
              AppComponent.initial eq_refl)
    as (save & Hstore & Hversion & Hframe).
  exists save. split; [exact Hstore|]. split; [exact Hversion|].
  apply Hframe; [discriminate | reflexivity].
Defined.

(** ** First-result semantics of the fetches *)

Lemma changeURL_normal userData c :
  fst (UserComponent.changeURL userData c) = Js.Normal tt.
Proof.
  unfold UserComponent.changeURL. destruct userData as [user|];
    [destruct (Js.truthy_string (uid user))|]; reflexivity.
Qed.

(** C7: each of the three fetches hands its subscriber at most its first
    result.  [AppComponent.loadSave], the auth-change handler of the
    profile page and its URL handler each run their callback on the head
    of what the fetch emits and on nothing else, and not at all when the
    fetch emits nothing; at most one value ever reaches the subscriber of
    the URL handler. *)
Theorem fetch_first_result_only :
  (forall env c,
      AppComponent.loadSave env c
      = (AppComponent.checkForSave env ;;
         if negb (AuthService.isLoggedIn (authService env))
         then AppComponent.startLoginOfflineDialog env
         else
           match AuthService.userData (authService env) with
           | None => Js.throw Js.TypeError
           | Some user =>
               match DatabaseService.loadSave (databaseService env)
                       (uid user) (AuthService.userData (authService env))
               with
               | [] => Js.ret tt
               | r :: _ => AppComponent.loadSave_next env r
               end
           end)%js c)
  /\ (forall getSave userData c,
      UserComponent.userChange_event getSave userData c
      = (UserComponent.changeURL userData ;;
         match userData with
         | None => Js.throw Js.TypeError
         | Some user =>
             match getSave (uid user) with
             | [] => Js.ret tt
             | r :: _ => UserComponent.userChange_next r
             end
         end)%js c)
  /\ (forall getSave userData cut params c,
      UserComponent.checkURL getSave userData cut params c
      = match params with
        | [] => (Js.Normal tt, c)
        | p :: _ =>
            match p !! "id" with
            | Some id =>
                if Js.truthy_string id
                then match getSave id with
                     | [] => (Js.Normal tt, c)
                     | r :: _ => UserComponent.checkURL_next r c
                     end
                else UserComponent.changeURL userData c
            | None => UserComponent.changeURL userData c
            end
        end)
  /\ (forall getSave userData cut params c,
      exists results c',
        UserComponent.checkURL_results getSave userData cut params c
        = (Js.Normal results, c')
        /\ (length results <= 1)%nat).
Proof.
  split; [|split; [|split]].
  - intros env c. unfold AppComponent.loadSave, Js.bind.
    destruct (AppComponent.checkForSave env c) as [[[]|e] c1]; [|reflexivity].
    destruct (AuthService.isLoggedIn (authService env)); [|reflexivity].
    cbn [negb]. destruct (AuthService.userData (authService env)) as [user|];
      [|reflexivity].
    rewrite subscribe_first.
    by destruct (DatabaseService.loadSave (databaseService env) (uid user)
                   (Some user)).
  - intros getSave userData c.
    unfold UserComponent.userChange_event, Js.bind.
    destruct (UserComponent.changeURL userData c) as [[[]|e] c1];
      [|reflexivity].
    destruct userData as [user|]; [|reflexivity].
    rewrite subscribe_first. by destruct (getSave (uid user)).
  - intros getSave userData cut params c.
    unfold UserComponent.checkURL, UserComponent.checkURL_results.
    destruct params as [|p rest]; [reflexivity|].
    rewrite first_cons. cbn [Rx.filter]. unfold UserComponent.has_id.
    pose proof (changeURL_normal userData c) as Hurl.
    destruct (p !! "id") as [id|] eqn:Hid.
    + destruct (Js.truthy_string id).
      * cbn. rewrite Hid. cbn [default]. apply subscribe_first.
      * unfold Js.bind. destruct (UserComponent.changeURL userData c)
          as [[[]|e] c1]; [reflexivity | discriminate].
    + unfold Js.bind. destruct (UserComponent.changeURL userData c)
        as [[[]|e] c1]; [reflexivity | discriminate].
  - intros getSave userData cut params c.
    unfold UserComponent.checkURL_results.
    destruct params as [|p rest];
      [exists [], c; split; [reflexivity | cbn; lia]|].
    rewrite first_cons. cbn [Rx.filter]. unfold UserComponent.has_id.
    pose proof (changeURL_normal userData c) as Hurl.
    destruct (p !! "id") as [id|] eqn:Hid.
    + destruct (Js.truthy_string id).
      * exists (Rx.first (getSave id)), c. split; [|apply first_length].
        cbn. rewrite Hid. reflexivity.
      * unfold Js.bind. destruct (UserComponent.changeURL userData c)
          as [[[]|e] c1]; [|discriminate].
        exists [], c1. split; [reflexivity | cbn; lia].
    + unfold Js.bind. destruct (UserComponent.changeURL userData c)
        as [[[]|e] c1]; [|discriminate].
      exists [], c1. split; [reflexivity | cbn; lia].
Qed.

(** ** The card counter *)








(** ** The card size *)









(** ** More on the save loader *)

Lemma truthy_string_nonempty (s : string) :
  s <> "" -> Js.truthy_string s = true.
Proof.
  intros Hne. unfold Js.truthy_string. by rewrite bool_decide_eq_false_2.
Qed.

(** [loadBackup], case by case. *)
Lemma loadBackup_run env result c :
  AppComponent.loadBackup env result c
  = match JSON_parse env result with
    | Some parsed =>
        match DatabaseService.checkSaveValidity (databaseService env) parsed
                None with
        | Js.Normal save =>
            (Js.Normal tt,
             {| AppComponent.localStorageSave :=
                  AppComponent.localStorageSave c;
                AppComponent.spinner := false;
                AppComponent.hide := false;
                AppComponent.noSaveDialog := AppComponent.noSaveDialog c;
                AppComponent.retryDialog := false;
                AppComponent.showChangelog := AppComponent.showChangelog c;
                AppComponent.store :=
                  AppComponent.store c ++ [DigimonActions.loadSave save];
                AppComponent.messages :=
                  AppComponent.messages c ++ [AppComponent.save_loaded] |})
        | Js.Throw _ =>
            AppComponent.messageService_add AppComponent.save_error c
        end
    | None => AppComponent.messageService_add AppComponent.save_error c
    end.
Proof.
  unfold AppComponent.loadBackup, Js.try_catch, Js.bind at 1,
    AppComponent.parse.
  destruct (JSON_parse env result) as [parsed|]; [|reflexivity].
  cbn [Js.ret]. unfold Js.bind at 1, Js.lift.
  destruct (DatabaseService.checkSaveValidity (databaseService env) parsed
              None); reflexivity.
Qed.


(** X2: cached text that is not JSON stops the load with a SyntaxError
    before anything else happens, signed in or not: no field of the
    component changes, nothing is dispatched, no dialog comes up. *)
Theorem loadSave_unreadable_cache env found c :
  localStorage env !! AppComponent.storage_key = Some found ->
  found <> "" ->
  JSON_parse env found = None ->
  AppComponent.loadSave env c = (Js.Throw Js.SyntaxError, c).
Proof.
  intros Hfound Hne Hparse.
  unfold AppComponent.loadSave, Js.bind at 1, AppComponent.checkForSave.
  rewrite Hfound, (truthy_string_nonempty found Hne).
  unfold Js.bind, AppComponent.parse. rewrite Hparse. reflexivity.
Qed.

(** An instance: a signed-in start-up over a cache holding a lone brace
    leaves the spinner up. *)
Lemma loadSave_unreadable_cache_witness :
  let env :=
    with_fetch (fun _ _ => [Some Sample.stale])
      (Sample.offline {[ AppComponent.storage_key := "{" ]}) in
  fst (AppComponent.constructor env) = Js.Throw Js.SyntaxError
  /\ AppComponent.spinner (snd (AppComponent.constructor env)) = true
  /\ AppComponent.store (snd (AppComponent.constructor env)) = [].
Proof.
  cbv zeta. unfold AppComponent.constructor.
  rewrite (loadSave_unreadable_cache _ "{" AppComponent.initial);
    [repeat split | reflexivity | discriminate | reflexivity].
Defined.

Lemma checkForSave_cases env c :
  AppComponent.checkForSave env c = (Js.Throw Js.SyntaxError, c)
  \/ exists v,
       AppComponent.checkForSave env c
       = (Js.Normal tt, AppComponent.set_localStorageSave v c).
Proof.
  unfold AppComponent.checkForSave.
  destruct (localStorage env !! AppComponent.storage_key) as [found|];
    [|right; eexists; reflexivity].
  destruct (Js.truthy_string found); [|right; eexists; reflexivity].
  unfold Js.bind, AppComponent.parse.
  destruct (JSON_parse env found) as [v|];
    [right; exists v; reflexivity | left; reflexivity].
Qed.

(** [startLoginOfflineDialog], case by case. *)
Lemma startLoginOfflineDialog_run env c :
  AppComponent.startLoginOfflineDialog env c
  = if Js.truthy (AppComponent.localStorageSave c)
    then
      match DatabaseService.checkSaveValidity (databaseService env)
              (AppComponent.localStorageSave c)
              (AuthService.userData (authService env)) with
      | Js.Normal save =>
          (Js.Normal tt,
           {| AppComponent.localStorageSave := Js.VObj save;
              AppComponent.spinner := false;
              AppComponent.hide := false;
              AppComponent.noSaveDialog := AppComponent.noSaveDialog c;
              AppComponent.retryDialog := AppComponent.retryDialog c;
              AppComponent.showChangelog := AppComponent.showChangelog c;
              AppComponent.store :=
                AppComponent.store c ++ [DigimonActions.loadSave save];
              AppComponent.messages := AppComponent.messages c |})
      | Js.Throw e => (Js.Throw e, c)
      end
    else
      (Js.Normal tt,
       AppComponent.set_noSaveDialog true (AppComponent.set_spinner false c)).
Proof.
  unfold AppComponent.startLoginOfflineDialog, Js.bind at 1. cbn [Js.reads].
  destruct (Js.truthy (AppComponent.localStorageSave c)); [|reflexivity].
  unfold Js.bind at 1, Js.lift.
  destruct (DatabaseService.checkSaveValidity (databaseService env)
              (AppComponent.localStorageSave c)
              (AuthService.userData (authService env))); reflexivity.
Qed.

(** [loadSave] after the cache has been read. *)
Lemma loadSave_unfold env c :
  AppComponent.loadSave env c
  = match AppComponent.checkForSave env c with
    | (Js.Throw e, c1) => (Js.Throw e, c1)
    | (Js.Normal _, c1) =>
        if AuthService.isLoggedIn (authService env)
        then
          match AuthService.userData (authService env) with
          | None => (Js.Throw Js.TypeError, c1)
          | Some user =>
              match DatabaseService.loadSave (databaseService env)
                      (uid user) (Some user) with
              | [] => (Js.Normal tt, c1)
              | r :: _ => AppComponent.loadSave_next env r c1
              end
          end
        else AppComponent.startLoginOfflineDialog env c1
    end.
Proof.
  unfold AppComponent.loadSave, Js.bind at 1.
  destruct (AppComponent.checkForSave env c) as [[[]|e] c1]; [|reflexivity].
  destruct (AuthService.isLoggedIn (authService env)); [|reflexivity].
  cbn [negb]. destruct (AuthService.userData (authService env)) as [user|];
    [|reflexivity].
  apply subscribe_first.
Qed.

(** X3: however start-up ends, the page is shown exactly when a save has
    been dispatched, and then the spinner is down and no dialog is up; a
    dialog is up only with the spinner down, the page hidden and nothing
    dispatched; the two dialogs are never up together; and start-up shows
    no toast. *)
Theorem startup_flags env :
  let c := snd (AppComponent.constructor env) in
  (AppComponent.hide c = false <-> AppComponent.store c <> [])
  /\ (AppComponent.store c <> [] ->
      AppComponent.spinner c = false
      /\ AppComponent.noSaveDialog c = false
      /\ AppComponent.retryDialog c = false)
  /\ (AppComponent.noSaveDialog c = true \/ AppComponent.retryDialog c = true ->
      fst (AppComponent.constructor env) = Js.Normal tt
      /\ AppComponent.spinner c = false
      /\ AppComponent.hide c = true
      /\ AppComponent.store c = [])
  /\ ~ (AppComponent.noSaveDialog c = true
        /\ AppComponent.retryDialog c = true)
  /\ AppComponent.messages c = [].
Proof.
  unfold AppComponent.constructor. rewrite loadSave_unfold.
  destruct (checkForSave_cases env AppComponent.initial) as [-> | [v ->]].
  { cbn. intuition congruence. }
  destruct (AuthService.isLoggedIn (authService env)).
  - destruct (AuthService.userData (authService env)) as [user|];
      [|cbn; intuition congruence].
    destruct (DatabaseService.loadSave (databaseService env) (uid user)
                (Some user)) as [|[save|] rest];
      cbn; intuition congruence.
  - rewrite startLoginOfflineDialog_run.
    cbn [AppComponent.localStorageSave AppComponent.set_localStorageSave].
    destruct (Js.truthy v); [|cbn; intuition congruence].
    destruct (DatabaseService.checkSaveValidity (databaseService env) v
                (AuthService.userData (authService env)));
      cbn; intuition congruence.
Qed.

(** An instance: after a failed fetch the retry dialog is up, so the
    spinner is down and the page hidden. *)
Lemma startup_flags_witness :
  let c := snd (AppComponent.constructor (Sample.online [None])) in
  AppComponent.retryDialog c = true
  /\ AppComponent.spinner c = false
  /\ AppComponent.hide c = true.
Proof.
  destruct (startup_flags (Sample.online [None])) as (_ & _ & Hdialog & _).
  destruct Hdialog as (_ & Hspinner & Hhide & _); [by right|].
  split; [reflexivity|]. split; [exact Hspinner | exact Hhide].
Defined.

(** What the cache read leaves in [localStorageSave] does not depend on
    the state it starts from. *)
Lemma checkForSave_uniform env :
  (forall c, AppComponent.checkForSave env c = (Js.Throw Js.SyntaxError, c))
  \/ exists v, forall c,
       AppComponent.checkForSave env c
       = (Js.Normal tt, AppComponent.set_localStorageSave v c).
Proof.
  unfold AppComponent.checkForSave.
  destruct (localStorage env !! AppComponent.storage_key) as [found|];
    [|right; eexists; reflexivity].
  destruct (Js.truthy_string found); [|right; eexists; reflexivity].
  unfold Js.bind, AppComponent.parse.
  destruct (JSON_parse env found) as [v|];
    [right; exists v; reflexivity | left; reflexivity].
Qed.

Lemma checkForSave_uniform_readable env :
  cache_readable env ->
  exists v, forall c,
    AppComponent.checkForSave env c
    = (Js.Normal tt, AppComponent.set_localStorageSave v c).
Proof.
  intros Hcache. destruct (checkForSave_uniform env) as [Hthrow | Hv];
    [|exact Hv].
  destruct (checkForSave_readable env AppComponent.initial Hcache) as [v Hv].
  rewrite Hthrow in Hv. discriminate.
Qed.



(** X5: while the fetch keeps answering [null], pressing retry brings the
    component back to the very state the failed load left it in. *)
Theorem retry_failing_again env user rest c :
  cache_readable env ->
  AuthService.isLoggedIn (authService env) = true ->
  AuthService.userData (authService env) = Some user ->
  DatabaseService.loadSave (databaseService env) (uid user) (Some user)
    = None :: rest ->
  let failed := Js.exec (AppComponent.loadSave env) c in
  AppComponent.retry env failed = (Js.Normal tt, failed).
Proof.
  intros Hcache Hin Huser Hfetch. unfold Js.exec.
  destruct (checkForSave_uniform_readable env Hcache) as [v Hv].
  rewrite retry_unfold, !loadSave_unfold, !Hv, Hin, Huser, Hfetch.
  destruct c. reflexivity.
Qed.

(** An instance: a failed start-up, then retry. *)
Lemma retry_failing_again_witness :
  let failed := snd (AppComponent.constructor (Sample.online [None])) in
  AppComponent.retry (Sample.online [None]) failed = (Js.Normal tt, failed).
Proof.
  exact (retry_failing_again (Sample.online [None]) Sample.ash []
           AppComponent.initial (sample_online_readable _)
           eq_refl eq_refl eq_refl).
Defined.

(** X6: when the fetch answers with a save after retry was pressed, the
    retry dialog and the spinner are down, the page is shown, the no-save
    dialog is as it was, and the fetched save has been dispatched under
    [loadSave] and then, at the current version, under [setSave]. *)
Theorem retry_succeeding env user save rest c :
  cache_readable env ->
  AuthService.isLoggedIn (authService env) = true ->
  AuthService.userData (authService env) = Some user ->
  DatabaseService.loadSave (databaseService env) (uid user) (Some user)
    = Some save :: rest ->
  let c' := Js.exec (AppComponent.retry env) c in
  Js.outcome (AppComponent.retry env) c = Js.Normal tt
  /\ AppComponent.retryDialog c' = false
  /\ AppComponent.spinner c' = false
  /\ AppComponent.hide c' = false
  /\ AppComponent.noSaveDialog c' = AppComponent.noSaveDialog c
  /\ AppComponent.store c'
     = AppComponent.store c
         ++ [DigimonActions.loadSave save;
             DigimonActions.setSave
               (Js.spread_with save "version"
                  (Js.VNum (currentVersion env)))].
Proof.
  intros Hcache Hin Huser Hfetch. unfold Js.exec, Js.outcome.
  destruct (checkForSave_uniform_readable env Hcache) as [v Hv].
  rewrite retry_unfold, !loadSave_unfold, !Hv, Hin, Huser, Hfetch.
  rewrite loadSave_next_save, emptySave_version. cbn.
  rewrite <- app_assoc. repeat split.
Qed.

(** An instance: the fetch fails at start-up and answers on retry. *)
Lemma retry_succeeding_witness :
  let failed := snd (AppComponent.constructor (Sample.online [None])) in
  let c' :=
    Js.exec (AppComponent.retry (Sample.online [Some Sample.stale])) failed in
  AppComponent.retryDialog failed = true
  /\ AppComponent.retryDialog c' = false
  /\ AppComponent.hide c' = false.
Proof.
  destruct (retry_succeeding (Sample.online [Some Sample.stale]) Sample.ash
              Sample.stale []
              (snd (AppComponent.constructor (Sample.online [None])))
              (sample_online_readable _) eq_refl eq_refl eq_refl)
    as (_ & Hretry & _ & Hhide & _).
  split; [reflexivity|]. split; [exact Hretry | exact Hhide].
Defined.

Lemma save_action_loadSave save : save_action (DigimonActions.loadSave save).
Proof. by eexists. Qed.

Lemma save_action_setSave save : save_action (DigimonActions.setSave save).
Proof. by eexists. Qed.

(** Closes a goal about a step that dispatched nothing. *)
Ltac nothing_new :=
  exists []; cbn; rewrite ?app_nil_r; repeat split; try lia; try constructor.

Lemma loadSave_frame env c :
  exists new,
    AppComponent.store (snd (AppComponent.loadSave env c))
    = AppComponent.store c ++ new
    /\ (length new <= 2)%nat
    /\ Forall save_action new
    /\ AppComponent.messages (snd (AppComponent.loadSave env c))
       = AppComponent.messages c.
Proof.
  rewrite loadSave_unfold.
  destruct (checkForSave_cases env c) as [-> | [v ->]].
  { nothing_new. }
  destruct (AuthService.isLoggedIn (authService env)).
  - destruct (AuthService.userData (authService env)) as [user|];
      [|nothing_new].
    destruct (DatabaseService.loadSave (databaseService env) (uid user)
                (Some user)) as [|[save|] rest].
    + nothing_new.
    + rewrite loadSave_next_save. cbn. eexists [_; _].
      split; [by rewrite <- app_assoc|]. split; [done|].
      split; [|done].
      repeat constructor;
        [apply save_action_loadSave | apply save_action_setSave].
    + nothing_new.
  - rewrite startLoginOfflineDialog_run.
    cbn [AppComponent.localStorageSave AppComponent.set_localStorageSave].
    destruct (Js.truthy v); [|nothing_new].
    destruct (DatabaseService.checkSaveValidity (databaseService env) v
                (AuthService.userData (authService env))) as [save|e].
    + cbn. eexists [_]. split; [done|]. split; [cbn; lia|].
      split; [|done]. repeat constructor. apply save_action_loadSave.
    + nothing_new.
Qed.

(** X7: no load operation (start-up, retry, import, new save) ever takes
    back or reorders what was dispatched before it.  It adds at most two
    actions, each carrying a save (none about card counts or decks), and
    only an import adds a toast. *)
Theorem load_operations_frame env op c :
  let c' := Js.exec (perform env op) c in
  (exists new,
      AppComponent.store c' = AppComponent.store c ++ new
      /\ (length new <= 2)%nat
      /\ Forall save_action new)
  /\ (exists toasts,
        AppComponent.messages c' = AppComponent.messages c ++ toasts
        /\ (length toasts <= 1)%nat
        /\ match op with
           | ImportFile _ => True
           | _ => toasts = []
           end).
Proof.
  unfold Js.exec. destruct op as [| |result|]; cbn [perform].
  - destruct (loadSave_frame env c) as (new & Hstore & Hlen & Hall & Hmsg).
    split; [by exists new|]. exists []. rewrite Hmsg, app_nil_r.
    split; [done|]. split; [cbn; lia | done].
  - rewrite retry_unfold.
    destruct (loadSave_frame env
                (AppComponent.set_retryDialog false
                   (AppComponent.set_spinner true c)))
      as (new & Hstore & Hlen & Hall & Hmsg).
    split; [by exists new|]. exists []. rewrite Hmsg, app_nil_r.
    split; [done|]. split; [cbn; lia | done].
  - rewrite loadBackup_run.
    destruct (JSON_parse env result) as [parsed|].
    + destruct (DatabaseService.checkSaveValidity (databaseService env)
                  parsed None) as [save|e]; cbn.
      * split.
        -- eexists [_]. split; [done|]. split; [cbn; lia|].
           repeat constructor. apply save_action_loadSave.
        -- eexists [_]. split; [done|]. split; [cbn; lia | done].
      * split; [nothing_new|].
        eexists [_]. split; [done|]. split; [cbn; lia | done].
    + cbn. split; [nothing_new|].
      eexists [_]. split; [done|]. split; [cbn; lia | done].
  - cbn. split.
    + eexists [_]. split; [done|]. split; [cbn; lia|].
      repeat constructor. apply save_action_setSave.
    + exists []. rewrite app_nil_r.
      split; [done|]. split; [cbn; lia | done].
Qed.

(** X8: for a signed-out user, a storage key that holds the empty string
    or text that parses to a falsy value ([null], [0], [false], an empty
    string) counts as no save: the no-save dialog comes up, the spinner
    goes, and nothing is dispatched or validated. *)
Theorem loadSave_falsy_cache env found c :
  AuthService.isLoggedIn (authService env) = false ->
  localStorage env !! AppComponent.storage_key = Some found ->
  found = ""
  \/ (exists v, JSON_parse env found = Some v /\ Js.truthy v = false) ->
  let c' := Js.exec (AppComponent.loadSave env) c in
  Js.outcome (AppComponent.loadSave env) c = Js.Normal tt
  /\ AppComponent.noSaveDialog c' = true
  /\ AppComponent.spinner c' = false
  /\ AppComponent.hide c' = AppComponent.hide c
  /\ AppComponent.store c' = AppComponent.store c.
Proof.
  intros Hout Hfound Hfalsy. unfold Js.exec, Js.outcome.
  rewrite loadSave_unfold. unfold AppComponent.checkForSave.
  rewrite Hfound, Hout. destruct Hfalsy as [-> | (v & Hparse & Hv)].
  - cbn. repeat split.
  - destruct (Js.truthy_string found).
    + unfold Js.bind, AppComponent.parse. rewrite Hparse. cbn [Js.ret Js.modify].
      rewrite startLoginOfflineDialog_run.
      cbn [AppComponent.localStorageSave AppComponent.set_localStorageSave].
      rewrite Hv. repeat split.
    + cbn. repeat split.
Qed.

(** An instance: the key holds the text [null]. *)
Lemma loadSave_falsy_cache_witness :
  AppComponent.noSaveDialog
    (snd (AppComponent.constructor
            (Sample.offline {[ AppComponent.storage_key := "null" ]})))
  = true.
Proof.
  destruct (loadSave_falsy_cache
              (Sample.offline {[ AppComponent.storage_key := "null" ]})
              "null" AppComponent.initial)
    as (_ & Hdialog & _);
    [reflexivity | reflexivity
     | right; exists Js.VNull; split; reflexivity |].
  exact Hdialog.
Defined.

(** X9: a signed-out load never touches the remote fetch, and a signed-in
    load never calls the validator: the fetched save goes to the store as
    the service returned it.  Swapping the unused service method for any
    other changes nothing in the result. *)
Theorem loadSave_unused_service env :
  (AuthService.isLoggedIn (authService env) = false ->
   forall fetch c,
     AppComponent.loadSave (with_fetch fetch env) c
     = AppComponent.loadSave env c)
  /\ (AuthService.isLoggedIn (authService env) = true ->
      forall validate c,
        AppComponent.loadSave (with_validator validate env) c
        = AppComponent.loadSave env c).
Proof.
  split.
  - intros Hout fetch c. rewrite !loadSave_unfold.
    change (AppComponent.checkForSave (with_fetch fetch env) c)
      with (AppComponent.checkForSave env c).
    destruct (AppComponent.checkForSave env c) as [[[]|e] c1]; [|reflexivity].
    cbn [authService with_fetch]. rewrite Hout. reflexivity.
  - intros Hin validate c. rewrite !loadSave_unfold.
    change (AppComponent.checkForSave (with_validator validate env) c)
      with (AppComponent.checkForSave env c).
    destruct (AppComponent.checkForSave env c) as [[[]|e] c1]; [|reflexivity].
    cbn [authService with_validator]. rewrite Hin. reflexivity.
Qed.

(** An instance: a signed-in start-up under a validator that always
    throws. *)
Lemma loadSave_unused_service_witness :
  AppComponent.constructor
    (with_validator (fun _ _ => Js.Throw Js.TypeError)
       (Sample.online [Some Sample.stale]))
  = AppComponent.constructor (Sample.online [Some Sample.stale]).
Proof.
  destruct (loadSave_unused_service (Sample.online [Some Sample.stale]))
    as (_ & Hin).
  exact (Hin eq_refl (fun _ _ => Js.Throw Js.TypeError) AppComponent.initial).
Defined.

(** ** More on the full-card widget *)

Lemma interact_cons c i events :
  FullCardComponent.interact c (i :: events)
  = FullCardComponent.interact (FullCardComponent.handle c i) events.
Proof. reflexivity. Qed.







(** X12: [setCardSize] only sets the width, and the last call wins.  With
    [biggerCards], [deckBuilder] or [compact] set the size passed in is
    ignored; the width is in vw exactly when [biggerCards] or [deckBuilder]
    is set and in vmin otherwise. *)
Theorem setCardSize_modes size c :
  let c' := FullCardComponent.setCardSize size c in
  (forall earlier,
      FullCardComponent.setCardSize size
        (FullCardComponent.setCardSize earlier c) = c')
  /\ (FullCardComponent.biggerCards c || FullCardComponent.deckBuilder c
      || FullCardComponent.compact c = true ->
      forall other, FullCardComponent.setCardSize other c = c')
  /\ suffix (FullCardComponent.cardWidth c')
     = (if FullCardComponent.biggerCards c || FullCardComponent.deckBuilder c
        then "vw" else "vmin")
  /\ FullCardComponent.count c' = FullCardComponent.count c
  /\ FullCardComponent.store c' = FullCardComponent.store c
  /\ FullCardComponent.viewCard c' = FullCardComponent.viewCard c
  /\ FullCardComponent.compact c' = FullCardComponent.compact c
  /\ FullCardComponent.deckBuilder c' = FullCardComponent.deckBuilder c
  /\ FullCardComponent.biggerCards c' = FullCardComponent.biggerCards c.
Proof.
  unfold FullCardComponent.setCardSize.
  destruct c as [card count compact deckBuilder biggerCards only width view st].
  cbn. destruct biggerCards, deckBuilder, compact; cbn; repeat split;
    try discriminate.
Qed.

(** An instance: the slider does nothing to a compact card. *)
Lemma setCardSize_modes_witness :
  FullCardComponent.setCardSize 5 (Sample.widget 0 true false)
  = FullCardComponent.setCardSize 80 (Sample.widget 0 true false).
Proof.
  destruct (setCardSize_modes 80 (Sample.widget 0 true false))
    as (_ & Hignored & _).
  exact (Hignored eq_refl 5%float).
Defined.

Lemma handle_keeps_count c i :
  ~ counter_press i ->
  FullCardComponent.count (FullCardComponent.handle c i)
  = FullCardComponent.count c.
Proof.
  destruct i as [| |value id|id|id|size]; cbn; try tauto; intros _.
  - unfold FullCardComponent.addCardToDeck.
    by destruct (FullCardComponent.collectionOnly c).
  - unfold FullCardComponent.changeCardCount. by destruct (value <=? 0).
  - unfold FullCardComponent.setCardSize.
    by destruct (FullCardComponent.biggerCards c),
      (FullCardComponent.deckBuilder c), (FullCardComponent.compact c).
Qed.

(** X13: only plus and minus move the widget's own count.  Over any run of
    other interactions (clicks on the card, typed counts, resizes) the
    count stays what it was; a typed count in particular is dispatched
    without being written to the widget. *)
Theorem count_moves_on_presses_only events : forall c,
  Forall (fun i => ~ counter_press i) events ->
  FullCardComponent.count (FullCardComponent.interact c events)
  = FullCardComponent.count c.
Proof.
  induction events as [|i events IH]; intros c Hall; [reflexivity|].
  destruct (Forall_cons_1 _ _ _ Hall) as [Hi Hrest].
  rewrite interact_cons, (IH _ Hrest). by apply handle_keeps_count.
Qed.

(** An instance: a typed 4 is dispatched while the count stays 0. *)
Lemma count_moves_on_presses_only_witness :
  let c' :=
    FullCardComponent.interact (Sample.widget 0 false false)
      [FullCardComponent.TypeCount 4 "BT1-001"; FullCardComponent.ClickCard] in
  FullCardComponent.count c' = 0
  /\ FullCardComponent.store c'
     = [DigimonActions.changeCardCount "BT1-001" 4;
        DigimonActions.addCardToDeck "BT1-001"].
Proof.
  split; [|reflexivity].
  apply (count_moves_on_presses_only
           [FullCardComponent.TypeCount 4 "BT1-001";
            FullCardComponent.ClickCard] (Sample.widget 0 false false)).
  repeat constructor; cbn; tauto.
Defined.

Lemma addCardToDeck_dispatches c0 :
  FullCardComponent.collectionOnly c0 = false ->
  FullCardComponent.store (FullCardComponent.addCardToDeck c0)
  = FullCardComponent.store c0
      ++ [DigimonActions.addCardToDeck (FullCardComponent.card c0)]
  /\ FullCardComponent.viewCard (FullCardComponent.addCardToDeck c0)
     = FullCardComponent.viewCard c0.
Proof.
  intros H0. unfold FullCardComponent.addCardToDeck. by rewrite H0.
Qed.

(** X14: in collection-only mode a click on the card never reaches the
    store: over any run of card clicks nothing is dispatched and the card
    is emitted on [viewCard] once per click.  Outside that mode a click on
    the card dispatches [addCardToDeck] for it and emits nothing. *)
Theorem card_clicks events : forall c,
  Forall card_click events ->
  FullCardComponent.collectionOnly c = true ->
  let c' := FullCardComponent.interact c events in
  FullCardComponent.store c' = FullCardComponent.store c
  /\ FullCardComponent.viewCard c'
     = FullCardComponent.viewCard c
         ++ replicate (length events) (FullCardComponent.card c)
  /\ (forall c0,
        FullCardComponent.collectionOnly c0 = false ->
        FullCardComponent.store (FullCardComponent.addCardToDeck c0)
        = FullCardComponent.store c0
            ++ [DigimonActions.addCardToDeck (FullCardComponent.card c0)]
        /\ FullCardComponent.viewCard (FullCardComponent.addCardToDeck c0)
           = FullCardComponent.viewCard c0).
Proof.
  induction events as [|i events IH]; intros c Hall Honly; cbv zeta.
  - cbn. rewrite app_nil_r.
    split; [done|]. split; [done | exact addCardToDeck_dispatches].
  - destruct (Forall_cons_1 _ _ _ Hall) as [Hi Hrest]. rewrite interact_cons.
    assert (FullCardComponent.handle c i = FullCardComponent.emit c) as ->.
    { destruct Hi as [-> | ->]; cbn; [|reflexivity].
      unfold FullCardComponent.addCardToDeck. by rewrite Honly. }
    destruct (IH (FullCardComponent.emit c) Hrest Honly)
      as (Hstore & Hview & _).
    rewrite Hstore, Hview. cbn. rewrite <- app_assoc.
    split; [done|]. split; [done | exact addCardToDeck_dispatches].
Qed.

(** An instance: two clicks on a collection-only card. *)
Lemma card_clicks_witness :
  let c :=
    {| FullCardComponent.card := "BT1-001";
       FullCardComponent.count := 0;
       FullCardComponent.compact := false;
       FullCardComponent.deckBuilder := false;
       FullCardComponent.biggerCards := false;
       FullCardComponent.collectionOnly := true;
       FullCardComponent.cardWidth := {| amount := 7; suffix := "vmin" |};
       FullCardComponent.viewCard := [];
       FullCardComponent.store := [] |} in
  let c' :=
    FullCardComponent.interact c
      [FullCardComponent.ClickCard; FullCardComponent.ClickDetails] in
  FullCardComponent.store c' = []
  /\ FullCardComponent.viewCard c' = ["BT1-001"; "BT1-001"].
Proof.
  cbv zeta.
  match goal with
  | |- FullCardComponent.store (FullCardComponent.interact ?c ?events) = _
       /\ _ =>
      destruct (card_clicks events c) as (Hstore & Hview & _)
  end.
  - constructor; [by left|]. constructor; [by right | constructor].
  - reflexivity.
  - split; [exact Hstore | exact Hview].
Defined.

(** ** The store subscriptions of the full-card widget *)

Lemma countInDeck_of_head e rest card :
  ICountCard.id e = card ->
  FullCardInit.countInDeck_of card (e :: rest) = ICountCard.count e.
Proof.
  intros Hid. unfold FullCardInit.countInDeck_of. cbn.
  by rewrite bool_decide_eq_true_2.
Qed.

Lemma countInDeck_of_skip e rest card :
  ICountCard.id e <> card ->
  FullCardInit.countInDeck_of card (e :: rest)
  = FullCardInit.countInDeck_of card rest.
Proof.
  intros Hid. unfold FullCardInit.countInDeck_of. cbn.
  by rewrite bool_decide_eq_false_2.
Qed.

(** X15: the count shown for a card is 0 when the deck has no entry for
    it; it is the count of the deck's entry for the card when card ids do
    not repeat in the deck; and when they do repeat, the first entry for
    the card is the one that counts. *)
Theorem countInDeck_lookup card cards :
  ((forall e, e ∈ cards -> ICountCard.id e <> card) ->
   FullCardInit.countInDeck_of card cards = 0)
  /\ (forall e,
      NoDup (ICountCard.id <$> cards) ->
      e ∈ cards -> ICountCard.id e = card ->
      FullCardInit.countInDeck_of card cards = ICountCard.count e)
  /\ (forall e before after,
      cards = before ++ e :: after ->
      (forall e', e' ∈ before -> ICountCard.id e' <> card) ->
      ICountCard.id e = card ->
      FullCardInit.countInDeck_of card cards = ICountCard.count e).
Proof.
  assert (forall e before after,
             (forall e', e' ∈ before -> ICountCard.id e' <> card) ->
             ICountCard.id e = card ->
             FullCardInit.countInDeck_of card (before ++ e :: after)
             = ICountCard.count e) as Hfirst.
  { intros e before after Hbefore Hid.
    induction before as [|e' before IH]; cbn [app].
    - by apply countInDeck_of_head.
    - rewrite countInDeck_of_skip by (apply Hbefore; left).
      apply IH. intros e'' Hin. apply Hbefore. by right. }
  split; [|split].
  - induction cards as [|e cards IH]; intros Habsent; [reflexivity|].
    rewrite countInDeck_of_skip by (apply Habsent; left).
    apply IH. intros e' Hin. apply Habsent. by right.
  - intros e Hnodup Hin Hid.
    apply list_elem_of_split in Hin as (before & after & ->).
    apply Hfirst; [|exact Hid].
    intros e' Hin' Heq. rewrite fmap_app, fmap_cons in Hnodup.
    destruct (proj1 (list.NoDup_app _ _) Hnodup)
      as (_ & Hdisjoint & _).
    apply (Hdisjoint (ICountCard.id e')).
    + apply list_elem_of_fmap. by exists e'.
    + rewrite Heq, <- Hid. left.
  - intros e before after -> Hbefore Hid. by apply Hfirst.
Qed.

(** An instance: a deck of two cards, asked for each and for a third. *)
Lemma countInDeck_lookup_witness :
  let deck :=
    [ {| ICountCard.id := "BT1-001"; ICountCard.count := 4 |};
      {| ICountCard.id := "BT2-010"; ICountCard.count := 2 |} ] in
  FullCardInit.countInDeck_of "BT2-010" deck = 2
  /\ FullCardInit.countInDeck_of "ST1-01" deck = 0.
Proof.
  cbv zeta. split.
  - match goal with
    | |- FullCardInit.countInDeck_of ?card ?deck = _ =>
        destruct (countInDeck_lookup card deck) as (_ & Hfound & _);
          apply (Hfound {| ICountCard.id := "BT2-010";
                           ICountCard.count := 2 |})
    end.
    + apply (bool_decide_unpack _). by vm_compute.
    + set_solver.
    + reflexivity.
  - match goal with
    | |- FullCardInit.countInDeck_of ?card ?deck = _ =>
        destruct (countInDeck_lookup card deck) as (Habsent & _);
          apply Habsent
    end.
    intros e He.
    apply elem_of_cons in He as [-> | He]; [discriminate|].
    apply elem_of_cons in He as [-> | He]; [discriminate|].
    by apply elem_of_nil in He.
Defined.

Lemma subscribe_collectionMinimum minimums : forall c,
  Rx.subscribe minimums FullCardInit.collectionMinimum_next c
  = (Js.Normal tt,
     {| FullCardInit.collectionMinimum :=
          default (FullCardInit.collectionMinimum c) (list.last minimums);
        FullCardInit.countInDeck := FullCardInit.countInDeck c |}).
Proof.
  induction minimums as [|m minimums IH]; intros c.
  - by destruct c.
  - cbn [Rx.subscribe]. unfold Js.bind. cbn [FullCardInit.collectionMinimum_next Js.modify].
    rewrite IH, last_cons. cbn. by destruct (list.last minimums).
Qed.

Lemma subscribe_countInDeck card decks : forall c,
  Rx.subscribe decks (FullCardInit.countInDeck_next card) c
  = (Js.Normal tt,
     {| FullCardInit.collectionMinimum := FullCardInit.collectionMinimum c;
        FullCardInit.countInDeck :=
          from_option (FullCardInit.countInDeck_of card)
            (FullCardInit.countInDeck c) (list.last decks) |}).
Proof.
  induction decks as [|d decks IH]; intros c.
  - by destruct c.
  - cbn [Rx.subscribe]. unfold Js.bind. cbn [FullCardInit.countInDeck_next Js.modify].
    rewrite IH, last_cons. cbn. by destruct (list.last decks).
Qed.

(** X16: after [ngOnInit] and [ngOnDestroy], the collection minimum is the
    last one the store emitted before the component was destroyed, and
    the count in deck is the one computed from the last deck emitted
    before then; with no emission before that the field keeps its value.
    Two runs that saw the same values before the component was destroyed
    end alike, whatever the store emits afterwards, and nothing is
    thrown. *)
Theorem ngOnInit_last_seen card seen_minimums minimums seen_decks decks c :
  let run :=
    FullCardInit.ngOnInit card seen_minimums minimums seen_decks decks in
  Js.outcome run c = Js.Normal tt
  /\ FullCardInit.collectionMinimum (Js.exec run c)
     = default (FullCardInit.collectionMinimum c)
         (list.last (take seen_minimums minimums))
  /\ FullCardInit.countInDeck (Js.exec run c)
     = from_option (FullCardInit.countInDeck_of card)
         (FullCardInit.countInDeck c) (list.last (take seen_decks decks))
  /\ (forall minimums' decks',
        take seen_minimums minimums' = take seen_minimums minimums ->
        take seen_decks decks' = take seen_decks decks ->
        FullCardInit.ngOnInit card seen_minimums minimums' seen_decks decks' c
        = run c).
Proof.
  assert (forall ms ds,
             FullCardInit.ngOnInit card seen_minimums ms seen_decks ds c
             = (Js.Normal tt,
                {| FullCardInit.collectionMinimum :=
                     default (FullCardInit.collectionMinimum c)
                       (list.last (take seen_minimums ms));
                   FullCardInit.countInDeck :=
                     from_option (FullCardInit.countInDeck_of card)
                       (FullCardInit.countInDeck c)
                       (list.last (take seen_decks ds)) |})) as Hrun.
  { intros ms ds. unfold FullCardInit.ngOnInit, Js.bind, Rx.takeUntil.
    by rewrite subscribe_collectionMinimum, subscribe_countInDeck. }
  cbv zeta. unfold Js.outcome, Js.exec. rewrite Hrun.
  split; [done|]. split; [done|]. split; [done|].
  intros minimums' decks' Hminimums Hdecks.
  by rewrite Hrun, Hminimums, Hdecks.
Qed.

(** An instance: the deck emitted after the component was destroyed is not
    counted. *)
Lemma ngOnInit_last_seen_witness :
  let deck n := [ {| ICountCard.id := "BT1-001"; ICountCard.count := n |} ] in
  FullCardInit.countInDeck
    (Js.exec (FullCardInit.ngOnInit "BT1-001" 0 [] 2
                [deck 1; deck 2; deck 3])
       FullCardInit.initial)
  = 2.
Proof.
  cbv zeta.
  match goal with
  | |- FullCardInit.countInDeck
         (Js.exec (FullCardInit.ngOnInit ?card ?sm ?ms ?sd ?ds) ?c) = _ =>
      destruct (ngOnInit_last_seen card sm ms sd ds c) as (_ & _ & Hcount & _)
  end.
  exact Hcount.
Defined.

(** ** More on the profile page *)


Lemma changeURL_run userData c :
  UserComponent.changeURL userData c
  = (Js.Normal tt,
     UserComponent.replaceState
       match userData with
       | Some user =>
           if Js.truthy_string (uid user) then "/user/" +:+ uid user
           else "/user"
       | None => "/user"
       end c).
Proof.
  unfold UserComponent.changeURL. destruct userData as [user|];
    [destruct (Js.truthy_string (uid user))|]; reflexivity.
Qed.




(** X18: [changeURL] never throws and touches nothing but the URL, which
    becomes [/user/] followed by the user's id when a user with a
    non-empty id is signed in, and [/user] otherwise; either way it starts
    with [/user]. *)
Theorem changeURL_paths userData c :
  let c' := Js.exec (UserComponent.changeURL userData) c in
  Js.outcome (UserComponent.changeURL userData) c = Js.Normal tt
  /\ UserComponent.save c' = UserComponent.save c
  /\ UserComponent.decks c' = UserComponent.decks c
  /\ UserComponent.collection c' = UserComponent.collection c
  /\ String.prefix "/user" (UserComponent.location c') = true
  /\ (UserComponent.location c' = "/user"
      <-> forall user, userData = Some user -> uid user = "")
  /\ (forall user,
        userData = Some user -> uid user <> "" ->
        UserComponent.location c' = "/user/" +:+ uid user).
Proof.
  unfold Js.exec, Js.outcome. rewrite changeURL_run.
  cbn [fst snd UserComponent.save UserComponent.decks UserComponent.collection
       UserComponent.location UserComponent.replaceState].
  split; [done|]. split; [done|]. split; [done|]. split; [done|].
  destruct userData as [user|].
  - unfold Js.truthy_string.
    destruct (bool_decide_reflect (uid user = "")) as [Hempty|Hne];
      cbn [negb].
    + split; [reflexivity|]. split.
      * split; [|done]. intros _ user' [= <-]. exact Hempty.
      * intros user' [= <-] Hne. by destruct Hne.
    + split; [reflexivity|]. split.
      * split; [discriminate|]. intros Hall. by destruct (Hne (Hall user eq_refl)).
      * by intros user' [= <-] _.
  - split; [reflexivity|]. split; [|discriminate].
    split; [discriminate | done].
Qed.

(** An instance: a signed-in user with id [ash], and nobody signed in. *)
Lemma changeURL_paths_witness :
  let c :=
    {| UserComponent.save := None; UserComponent.decks := Js.VArr [];
       UserComponent.collection := Js.VArr [];
       UserComponent.location := "/" |} in
  UserComponent.location
    (Js.exec (UserComponent.changeURL (Some Sample.ash)) c) = "/user/ash"
  /\ UserComponent.location (Js.exec (UserComponent.changeURL None) c)
     = "/user".
Proof.
  cbv zeta. split.
  - match goal with
    | |- UserComponent.location
           (Js.exec (UserComponent.changeURL ?u) ?c) = _ =>
        destruct (changeURL_paths u c) as (_ & _ & _ & _ & _ & _ & Hin)
    end.
    apply (Hin Sample.ash); [reflexivity | discriminate].
  - match goal with
    | |- UserComponent.location
           (Js.exec (UserComponent.changeURL ?u) ?c) = _ =>
        destruct (changeURL_paths u c) as (_ & _ & _ & _ & _ & Hout & _)
    end.
    apply Hout. discriminate.
Defined.

(** X19: at a change of the signed-in user, the handler of [userChange]
    first rewrites the URL and then fetches.  With a user of non-empty id
    whose fetch answers, the URL names that user and the save shown is the
    first result of the fetch for that same id.  With no user the URL is
    reset to [/user] and a TypeError is thrown before any fetch: the save
    shown before stays on the page. *)
Theorem userChange_event_cases getSave c :
  (forall user r rest,
      uid user <> "" ->
      getSave (uid user) = r :: rest ->
      UserComponent.userChange_event getSave (Some user) c
      = (Js.Normal tt,
         {| UserComponent.save := r;
            UserComponent.decks := UserComponent.decks c;
            UserComponent.collection := UserComponent.collection c;
            UserComponent.location := "/user/" +:+ uid user |}))
  /\ (forall getSave',
        UserComponent.userChange_event getSave' None c
        = (Js.Throw Js.TypeError,
           {| UserComponent.save := UserComponent.save c;
              UserComponent.decks := UserComponent.decks c;
              UserComponent.collection := UserComponent.collection c;
              UserComponent.location := "/user" |})).
Proof.
  split.
  - intros user r rest Hne Hfetch.
    unfold UserComponent.userChange_event, Js.bind at 1.
    rewrite changeURL_run, (truthy_string_nonempty _ Hne).
    rewrite subscribe_first, Hfetch. reflexivity.
  - intros getSave'. reflexivity.
Qed.

(** An instance: [ash] signs in and the fetch answers with a save. *)
Lemma userChange_event_cases_witness :
  let c :=
    {| UserComponent.save := None; UserComponent.decks := Js.VArr [];
       UserComponent.collection := Js.VArr [];
       UserComponent.location := "/user" |} in
  let c' :=
    Js.exec (UserComponent.userChange_event
               (fun _ => [Some Sample.stale; None]) (Some Sample.ash)) c in
  UserComponent.save c' = Some Sample.stale
  /\ UserComponent.location c' = "/user/ash".
Proof.
  cbv zeta. unfold Js.exec.
  match goal with
  | |- context [UserComponent.userChange_event ?g _ ?c] =>
      destruct (userChange_event_cases g c) as (Hin & _)
  end.
  rewrite (Hin Sample.ash (Some Sample.stale) [None]);
    [split; reflexivity | discriminate | reflexivity].
Defined.

(** ** A validator that throws at start-up *)

(** X20: at start-up nothing catches the validator.  For a signed-out user
    whose storage key holds a save the validator rejects by throwing, the
    exception leaves [loadSave]: the parsed cache is kept in
    [localStorageSave], but the spinner stays as it was, no dialog comes
    up and nothing is dispatched; an import of the same text would have
    ended with the warning toast instead. *)
Theorem loadSave_validator_throws env found raw e c :
  AuthService.isLoggedIn (authService env) = false ->
  localStorage env !! AppComponent.storage_key = Some found ->
  found <> "" ->
  JSON_parse env found = Some raw ->
  Js.truthy raw = true ->
  DatabaseService.checkSaveValidity (databaseService env) raw
    (AuthService.userData (authService env)) = Js.Throw e ->
  DatabaseService.checkSaveValidity (databaseService env) raw None
    = Js.Throw e ->
  AppComponent.loadSave env c
  = (Js.Throw e, AppComponent.set_localStorageSave raw c)
  /\ AppComponent.loadBackup env found c
     = AppComponent.messageService_add AppComponent.save_error c.
Proof.
  intros Hout Hfound Hne Hparse Htruthy Hthrow Hthrow'. split.
  - rewrite loadSave_unfold. unfold AppComponent.checkForSave.
    rewrite Hfound, (truthy_string_nonempty _ Hne).
    unfold Js.bind, AppComponent.parse. rewrite Hparse. cbn [Js.ret Js.modify].
    rewrite Hout, startLoginOfflineDialog_run.
    cbn [AppComponent.localStorageSave AppComponent.set_localStorageSave].
    by rewrite Htruthy, Hthrow.
  - by rewrite loadBackup_run, Hparse, Hthrow'.
Qed.

(** An instance: a cached empty object under a validator that throws. *)
Lemma loadSave_validator_throws_witness :
  let env :=
    with_validator (fun _ _ => Js.Throw Js.TypeError)
      (Sample.offline {[ AppComponent.storage_key := "{}" ]}) in
  fst (AppComponent.constructor env) = Js.Throw Js.TypeError
  /\ AppComponent.spinner (snd (AppComponent.constructor env)) = true
  /\ AppComponent.messages
       (Js.exec (AppComponent.loadBackup env "{}") AppComponent.initial)
     = [AppComponent.save_error].
Proof.
  cbv zeta. unfold AppComponent.constructor, Js.exec.
  match goal with
  | |- context [AppComponent.loadSave ?env _] =>
      destruct (loadSave_validator_throws env "{}" (Js.VObj ∅) Js.TypeError
                  AppComponent.initial) as (Hload & Himport);
        [reflexivity | reflexivity | discriminate | reflexivity
         | reflexivity | reflexivity | reflexivity |]
  end.
  rewrite Hload, Himport. repeat split.
Defined.
